(** * store-back: ticket lifecycle, connection registry and notification dispatch

    Shallow embedding of
      - src/models/Ticket.js            (schema, pre('save') hook)
      - src/models/Notification.js      (schema, createNotification)
      - src/services/webSocketService.js (userSockets map, broadcastNotification)
      - src/services/notificationService.js (createInAppNotification,
        sendNotification, sendEmailNotification)
      - src/controllers/notificationController.js (markNotificationAsRead and
        the ticket handlers createTicket, addTicketMessage, updateTicketStatus,
        escalateTicket)

    Conventions.  A JS value that may be [undefined]/[null] is an [option].
    Dates are milliseconds since the epoch ([Z]).  ObjectIds are strings, so
    [toString()] on an id is the identity.  Strings are byte strings; the
    two keywords the hook searches for are ASCII, and lower-casing a
    non-ASCII character never yields one of their letters, so ASCII
    lower-casing decides the same searches as JS [toLowerCase]. *)

From Stdlib Require Import ZArith Bool Ascii String List Lia.
From stdpp Require Import base gmap strings list.

Open Scope string_scope.
Open Scope Z_scope.

(** ** JS string primitives used by the hook *)

Module JsString.

Definition lowerAscii (c : ascii) : ascii :=
let n := N_of_ascii c in
if ((65 <=? n) && (n <=? 90))%N then ascii_of_N (n + 32) else c.

Fixpoint toLowerCase (s : string) : string :=
match s with
| EmptyString => EmptyString
| String c r => String (lowerAscii c) (toLowerCase r)
end.

Fixpoint startsWith (s kw : string) {struct kw} : bool :=
match kw, s with
| EmptyString, _ => true
| String _ _, EmptyString => false
| String k kw', String c s' => Ascii.eqb c k && startsWith s' kw'
end.

(** [s.includes(kw)] *)
Fixpoint includes (s kw : string) : bool :=
startsWith s kw ||
match s with
| EmptyString => false
| String _ s' => includes s' kw
end.

(** The reading of "case-insensitively contains": some substring of [s]
  lower-cases to [kw]. *)
Definition containsIgnoringCase (s kw : string) : Prop :=
exists pre mid post, s = pre ++ mid ++ post /\ toLowerCase mid = kw.

End JsString.

(** ** src/models/Ticket.js *)

Definition ObjectId := string.
Definition Date := Z.

Inductive JsError :=
| TypeError (what : string)
| ValidationError (path : string)
| StoreError (what : string)
| MailError (what : string)
| WrappedError (prefix : string) (cause : JsError).

Inductive Status := Open | InProgress | Resolved | Closed.
Inductive Priority := Low | Medium | High | Urgent.

Definition status_eqb (a b : Status) : bool :=
  match a, b with
  | Open, Open | InProgress, InProgress | Resolved, Resolved | Closed, Closed => true
  | _, _ => false
  end.

Definition priority_eqb (a b : Priority) : bool :=
  match a, b with
  | Low, Low | Medium, Medium | High, High | Urgent, Urgent => true
  | _, _ => false
  end.

(** Position in the enum ['Low', 'Medium', 'High', 'Urgent']. *)
Definition priority_rank (p : Priority) : Z :=
  match p with Low => 0 | Medium => 1 | High => 2 | Urgent => 3 end.

(** The enum strings of the schema. *)
Definition status_to_string (s : Status) : string :=
  match s with
  | Open => "Open" | InProgress => "In Progress"
  | Resolved => "Resolved" | Closed => "Closed"
  end.

Definition validStatuses : list Status := [Open; InProgress; Resolved; Closed].

(** [validStatuses.includes(status)], returning the matching enum value. *)
Definition status_of_string (s : string) : option Status :=
  List.find (fun v => String.eqb (status_to_string v) s) validStatuses.

Module Message.
(** An element of [messages].  [sender], [message], [isAdmin] and
    [createdAt] are the paths the schema declares; [content] and
    [isSystemMessage] are the keys the controllers write.  A key that an
    object literal does not mention is [None] ([false] for the flags:
    [isAdmin] defaults to false, and both are only read for truthiness). *)
Record t := mk {
  sender : option ObjectId;
  message : option string;
  content : option string;
  isAdmin : bool;
  isSystemMessage : bool;
  createdAt : Date
}.
End Message.

Record PaymentDetails := { d17 : string; boustaRIB : string }.

Record Metadata := { resolutionTime : option Date }.

Module Ticket.
Record t := mk {
  _id : ObjectId;
  order : ObjectId;
  user : ObjectId;
  subject : option string;
  description : option string;
  status : Status;
  priority : Priority;
  messages : list Message.t;
  assignedStaff : option ObjectId;
  closedAt : option Date;
  paymentDetails : option PaymentDetails;
  metadata : Metadata;
  createdAt : option Date
}.

Definition set_status (v : Status) (d : t) : t :=
  mk (_id d) (order d) (user d) (subject d) (description d) v (priority d)
     (messages d) (assignedStaff d) (closedAt d) (paymentDetails d)
     (metadata d) (createdAt d).
Definition set_priority (v : Priority) (d : t) : t :=
  mk (_id d) (order d) (user d) (subject d) (description d) (status d) v
     (messages d) (assignedStaff d) (closedAt d) (paymentDetails d)
     (metadata d) (createdAt d).
Definition set_messages (v : list Message.t) (d : t) : t :=
  mk (_id d) (order d) (user d) (subject d) (description d) (status d)
     (priority d) v (assignedStaff d) (closedAt d) (paymentDetails d)
     (metadata d) (createdAt d).
Definition set_assignedStaff (v : option ObjectId) (d : t) : t :=
  mk (_id d) (order d) (user d) (subject d) (description d) (status d)
     (priority d) (messages d) v (closedAt d) (paymentDetails d)
     (metadata d) (createdAt d).
Definition set_closedAt (v : option Date) (d : t) : t :=
  mk (_id d) (order d) (user d) (subject d) (description d) (status d)
     (priority d) (messages d) (assignedStaff d) v (paymentDetails d)
     (metadata d) (createdAt d).
Definition set_metadata (v : Metadata) (d : t) : t :=
  mk (_id d) (order d) (user d) (subject d) (description d) (status d)
     (priority d) (messages d) (assignedStaff d) (closedAt d)
     (paymentDetails d) v (createdAt d).
Definition set_createdAt (v : option Date) (d : t) : t :=
  mk (_id d) (order d) (user d) (subject d) (description d) (status d)
     (priority d) (messages d) (assignedStaff d) (closedAt d)
     (paymentDetails d) (metadata d) v.

(** [messages.push(m)] *)
Definition push_message (m : Message.t) (d : t) : t :=
  set_messages (messages d ++ [m]) d.

(** *** Schema validation ([required: true])

    A required String path rejects [undefined] and the empty string; a
    required ObjectId path rejects [null]/[undefined].  [status] and
    [priority] are enum-typed here, so their enum validators always
    pass. *)
Definition requiredString (v : option string) : bool :=
  match v with
  | Some s => negb (String.eqb s "")
  | None => false
  end.

Definition validateMessage (m : Message.t) : bool :=
  match Message.sender m with Some _ => true | None => false end
  && requiredString (Message.message m).

Definition validate (d : t) : bool :=
  requiredString (subject d) && requiredString (description d)
  && forallb validateMessage (messages d).

(** *** The pre('save') hook *)

(** The filter callback
    [msg.message.toLowerCase().includes('urgent') ||
     msg.message.toLowerCase().includes('emergency')]
    on a defined [msg.message]. *)
Definition isUrgentText (s : string) : bool :=
  JsString.includes (JsString.toLowerCase s) "urgent"
  || JsString.includes (JsString.toLowerCase s) "emergency".

(** [this.messages.filter(...)]: [inl e] when the callback raises, which
    it does at the first message whose [message] is undefined. *)
Fixpoint urgentMessages (ms : list Message.t) : JsError + list Message.t :=
  match ms with
  | [] => inr []
  | m :: rest =>
      match Message.message m with
      | None => inl (TypeError "msg.message is undefined")
      | Some s =>
          match urgentMessages rest with
          | inl e => inl e
          | inr keep => inr (if isUrgentText s then m :: keep else keep)
          end
      end
  end.

(** First block of the hook (lines 99-105). *)
Definition autoClose (now : Date) (d : t) : t :=
  if (0 <? Z.of_nat (length (messages d)))
     && forallb Message.isAdmin (messages d)
     && negb (status_eqb (status d) Closed)
  then set_metadata {| resolutionTime := Some now |}
         (set_closedAt (Some now) (set_status Closed d))
  else d.

(** The hook mutates [this] in place: the first component is the document
    after the hook ran (or after it raised), the second is [None] when
    [next()] was reached and [Some e] when the hook raised [e]. *)
Definition preSave (now : Date) (d : t) : t * option JsError :=
  let d1 := autoClose now d in
  match urgentMessages (messages d1) with
  | inl e => (d1, Some e)
  | inr urgent =>
      (if (0 <? Z.of_nat (length urgent))
          && negb (priority_eqb (priority d1) Urgent)
       then set_priority Urgent d1 else d1, None)
  end.
End Ticket.

(** ** src/models/User.js, Order (only the paths the handlers read) *)

Module User.
(** [role] and [isActive] are the keys [escalateTicket] queries. *)
Record t := mk {
  _id : ObjectId;
  username : string;
  email : string;
  isAdmin : bool;
  role : option string;
  isActive : option bool
}.
End User.

Module Order.
Record t := mk { _id : ObjectId; user : ObjectId }.
End Order.

(** ** src/models/Notification.js *)

Module Notification.
(** [isRead] is the schema's flag; [read] is the key that
    [markNotificationAsRead] writes. *)
Record t := mk {
  _id : ObjectId;
  user : ObjectId;
  ticket : option ObjectId;
  type : string;
  message : string;
  isRead : bool;
  read : option bool
}.

(** The object handed to [createNotification]. *)
Record data := mkData {
  data_user : ObjectId;
  data_ticket : option ObjectId;
  data_type : string;
  data_message : string
}.

Definition typeEnum : list string :=
  ["TICKET_CREATED"; "TICKET_UPDATED"; "TICKET_ASSIGNED";
   "TICKET_ESCALATED"; "TICKET_CLOSED"; "MESSAGE_RECEIVED"].

Definition validate (d : data) : bool :=
  existsb (String.eqb (data_type d)) typeEnum
  && negb (String.eqb (data_message d) "").

Definition set_read (v : option bool) (n : t) : t :=
  mk (_id n) (user n) (ticket n) (type n) (message n) (isRead n) v.
End Notification.

(** ** Process state and the outside world *)

Definition Socket := string.

Record MailOptions := { to : string; mail_subject : string; html : string }.

Record State := mkState {
  tickets : gmap ObjectId Ticket.t;
  orders : gmap ObjectId Order.t;
  users : list User.t;
  notifications : list Notification.t;
  userSockets : gmap string Socket;
  emitted : list (Socket * string * Notification.t);
  sentMail : list MailOptions;
  console : list string
}.

(** What the collaborators answer during one request. *)
Record World := {
  notificationStoreUp : bool;  (** the Notification collection accepts the query *)
  pushRaises : bool;           (** the call on the imported [webSocketService] raises *)
  mailDelivers : bool;         (** [transporter.sendMail] resolves *)
  freshId : ObjectId;          (** the [_id] given to a document created now *)
  frontendUrl : string
}.

(** The same world with other push and mail outcomes. *)
Definition withDelivery (push mail : bool) (w : World) : World :=
  {| notificationStoreUp := notificationStoreUp w;
     pushRaises := push;
     mailDelivers := mail;
     freshId := freshId w;
     frontendUrl := frontendUrl w |}.

Definition set_tickets v (st : State) : State :=
  mkState v (orders st) (users st) (notifications st) (userSockets st)
          (emitted st) (sentMail st) (console st).
Definition set_notifications v (st : State) : State :=
  mkState (tickets st) (orders st) (users st) v (userSockets st)
          (emitted st) (sentMail st) (console st).
Definition set_userSockets v (st : State) : State :=
  mkState (tickets st) (orders st) (users st) (notifications st) v
          (emitted st) (sentMail st) (console st).
Definition set_emitted v (st : State) : State :=
  mkState (tickets st) (orders st) (users st) (notifications st)
          (userSockets st) v (sentMail st) (console st).
Definition set_sentMail v (st : State) : State :=
  mkState (tickets st) (orders st) (users st) (notifications st)
          (userSockets st) (emitted st) v (console st).
Definition set_console v (st : State) : State :=
  mkState (tickets st) (orders st) (users st) (notifications st)
          (userSockets st) (emitted st) (sentMail st) v.

(** *** Async code: state plus exceptions.  A raise keeps the effects made
    before it, as a rejected promise does. *)

Definition M (A : Type) : Type := State -> (JsError + A) * State.

Definition ret {A} (a : A) : M A := fun st => (inr a, st).
Definition throw {A} (e : JsError) : M A := fun st => (inl e, st).
Definition bind {A B} (c : M A) (k : A -> M B) : M B :=
  fun st =>
    match c st with
    | (inl e, st') => (inl e, st')
    | (inr a, st') => k a st'
    end.
(** [try { c } catch (error) { h error }] *)
Definition tryCatch {A} (c : M A) (h : JsError -> M A) : M A :=
  fun st =>
    match c st with
    | (inl e, st') => h e st'
    | (inr a, st') => (inr a, st')
    end.
Definition gets {A} (f : State -> A) : M A := fun st => (inr (f st), st).
Definition modify (f : State -> State) : M unit := fun st => (inr tt, f st).

#[global] Instance M_ret : MRet M := @ret.
#[global] Instance M_bind : MBind M := fun A B k c => bind c k.

(** [console.error(label, error)] *)
Definition console_error (label : string) : M unit :=
  modify (fun st => set_console (console st ++ [label]) st).

(** ** src/services/webSocketService.js *)

Module WebSocketService.
(** [this.userSockets.set(socket.user._id.toString(), socket)] on
    'connection'. *)
Definition onConnection (userId : ObjectId) (socket : Socket) : M unit :=
  modify (fun st => set_userSockets (<[userId := socket]> (userSockets st)) st).

(** [this.userSockets.delete(socket.user._id.toString())] on 'disconnect'. *)
Definition onDisconnect (userId : ObjectId) : M unit :=
  modify (fun st => set_userSockets (delete userId (userSockets st)) st).

(** [socket.emit(event, payload)] *)
Definition emit (socket : Socket) (event : string) (payload : Notification.t)
  : M unit :=
  modify (fun st => set_emitted (emitted st ++ [(socket, event, payload)]) st).

Definition broadcastNotification (userId : ObjectId)
    (notification : Notification.t) : M unit :=
  userSocket ← gets (fun st => userSockets st !! userId);
  match userSocket with
  | Some socket => emit socket "new_notification" notification
  | None => mret tt
  end.

(** [Array.from(this.userSockets.keys())], as a set of keys. *)
Definition getActiveConnections (st : State) : gset string :=
  dom (userSockets st).
End WebSocketService.

(** ** Notification.createNotification (Notification.js, lines 52-59) *)

Module NotificationModel.
(** The document [create] builds from [data]: [isRead] takes its default. *)
Definition newDocument (w : World) (d : Notification.data) : Notification.t :=
  Notification.mk (freshId w) (Notification.data_user d)
    (Notification.data_ticket d) (Notification.data_type d)
    (Notification.data_message d) false None.

(** [this.create(data)]: the schema validators run, then the document is
    inserted; either step can reject. *)
Definition create (w : World) (d : Notification.data) : M Notification.t :=
  if negb (Notification.validate d) then
    throw (ValidationError "Notification validation failed")
  else if negb (notificationStoreUp w) then
    throw (StoreError "insert rejected")
  else
    let n := newDocument w d in
    modify (fun st => set_notifications (notifications st ++ [n]) st);;
    mret n.

Definition createNotification (w : World) (d : Notification.data)
  : M Notification.t :=
  tryCatch (notification ← create w d; mret notification)
           (fun error => throw (WrappedError "Failed to create notification: " error)).

(** [Notification.findOneAndUpdate(filter, update, { new: true })] on the
    stored documents: the first match is updated and returned. *)
Fixpoint findOneAndUpdate (filter : Notification.t -> bool)
    (update : Notification.t -> Notification.t) (docs : list Notification.t)
  : option Notification.t * list Notification.t :=
  match docs with
  | [] => (None, [])
  | n :: rest =>
      if filter n then (Some (update n), update n :: rest)
      else let '(found, rest') := findOneAndUpdate filter update rest in
           (found, n :: rest')
  end.
End NotificationModel.

(** ** src/services/notificationService.js *)

Module NotificationService.
Definition messageTable (ticketId : ObjectId) : list (string * string) :=
  [("TICKET_CREATED", "Your ticket #" ++ ticketId ++ " has been created successfully.");
   ("TICKET_UPDATED", "Your ticket #" ++ ticketId ++ " has been updated.");
   ("TICKET_ASSIGNED", "Your ticket #" ++ ticketId ++ " has been assigned to a support agent.");
   ("TICKET_ESCALATED", "Your ticket #" ++ ticketId ++ " has been escalated for urgent attention.");
   ("TICKET_CLOSED", "Your ticket #" ++ ticketId ++ " has been closed.");
   ("MESSAGE_RECEIVED", "You have a new message on ticket #" ++ ticketId ++ ".")].

(** [table[type] || fallback] *)
Definition lookupOr (table : list (string * string)) (type fallback : string)
  : string :=
  match List.find (fun kv => String.eqb (fst kv) type) table with
  | Some kv => snd kv
  | None => fallback
  end.

Definition getNotificationMessage (ticket : Ticket.t) (type : string) : string :=
  lookupOr (messageTable (Ticket._id ticket)) type "You have a ticket notification.".

Definition getEmailSubject (type : string) : string :=
  lookupOr [("TICKET_CREATED", "New Ticket Created");
            ("TICKET_UPDATED", "Ticket Update");
            ("TICKET_ASSIGNED", "Ticket Assigned");
            ("TICKET_ESCALATED", "Ticket Escalated");
            ("TICKET_CLOSED", "Ticket Closed");
            ("MESSAGE_RECEIVED", "New Message Received")]
           type "Ticket Notification".

(** The quote and newline characters of the template. *)
Definition quote : string := String (ascii_of_nat 34) EmptyString.
Definition newline : string := String (ascii_of_nat 10) EmptyString.

(** The template literal of lines 97-104, with its line breaks and
    indentation. *)
Definition getEmailTemplate (w : World) (user : User.t) (ticket : Ticket.t)
    (type : string) : string :=
  newline ++ "            <div style=" ++ quote
  ++ "font-family: Arial, sans-serif; max-width: 600px; margin: 0 auto;"
  ++ quote ++ ">"
  ++ newline ++ "                <h2>Ticket Notification</h2>"
  ++ newline ++ "                <p>Dear " ++ User.username user ++ ",</p>"
  ++ newline ++ "                <p>" ++ getNotificationMessage ticket type ++ "</p>"
  ++ newline ++ "                <a href=" ++ quote ++ frontendUrl w ++ "/tickets/"
  ++ Ticket._id ticket ++ quote ++ ">View Ticket</a>"
  ++ newline ++ "            </div>"
  ++ newline ++ "        ".

(** Lines 19-31.  The module-level [webSocketService] comes from
    [require('../server')]; [pushRaises] says whether the call on it
    raises. *)
Definition createInAppNotification (w : World) (d : Notification.data)
  : M Notification.t :=
  tryCatch
    (notification ← NotificationModel.createNotification w d;
     (if pushRaises w
      then throw (TypeError "webSocketService.broadcastNotification")
      else WebSocketService.broadcastNotification
             (Notification.data_user d) notification);;
     mret notification)
    (fun error =>
       console_error "Error creating in-app notification:";;
       throw error).

(** Lines 67-80. *)
Definition sendEmailNotification (w : World) (user : User.t)
    (ticket : Ticket.t) (type : string) : M unit :=
  tryCatch
    (let mailOptions := {| to := User.email user;
                           mail_subject := getEmailSubject type;
                           html := getEmailTemplate w user ticket type |} in
     if mailDelivers w
     then modify (fun st => set_sentMail (sentMail st ++ [mailOptions]) st)
     else throw (MailError "sendMail rejected"))
    (fun error => console_error "Error sending email notification:").

(** The object literal of lines 37-42. *)
Definition notificationData (u : User.t) (ticket : Ticket.t) (type : string)
  : Notification.data :=
  Notification.mkData (User._id u) (Some (Ticket._id ticket)) type
    (getNotificationMessage ticket type).

(** Lines 34-51.  [user] is what [User.findById] answered; reading
    [user._id] of [null] raises inside the [try].  The result is the
    returned notification, [None] for [undefined]. *)
Definition sendNotification (w : World) (user : option User.t)
    (ticket : Ticket.t) (type : string) : M (option Notification.t) :=
  tryCatch
    (u ← match user with
         | Some u => mret u
         | None => throw (TypeError "user is null")
         end;
     notification ← createInAppNotification w (notificationData u ticket type);
     sendEmailNotification w u ticket type;;
     mret (Some notification))
    (fun error =>
       console_error "Error sending notification:";;
       mret None).

(** [User.findById(id)] *)
Definition User_findById (id : ObjectId) : M (option User.t) :=
  gets (fun st => List.find (fun u => String.eqb (User._id u) id) (users st)).

Definition notifyTicketCreation (w : World) (ticket : Ticket.t) : M unit :=
  user ← User_findById (Ticket.user ticket);
  sendNotification w user ticket "TICKET_CREATED";;
  mret tt.

Definition notifyTicketUpdate (w : World) (ticket : Ticket.t)
    (updatedBy : User.t) : M unit :=
  user ← User_findById (Ticket.user ticket);
  sendNotification w user ticket "TICKET_UPDATED";;
  mret tt.

(** The class defines neither [notifyTicketStatusUpdate] nor
    [notifyTicketEscalation]; calling a property that is [undefined]
    raises a TypeError. *)
Definition notifyTicketStatusUpdate (ticket : Ticket.t) (by_ : User.t)
  : M unit :=
  throw (TypeError "NotificationService.notifyTicketStatusUpdate is not a function").

Definition notifyTicketEscalation (ticket : Ticket.t) : M unit :=
  throw (TypeError "NotificationService.notifyTicketEscalation is not a function").
End NotificationService.

(** ** Express replies *)

Inductive Body :=
| MessageBody (message : string)
| ErrorBody (message : string) (error : JsError)
| TicketBody (ticket : Ticket.t)
| NotificationBody (status : string) (notification : Notification.t).

Inductive Reply :=
| Json (statusCode : Z) (body : Body)      (** [res.status(c).json(b)] *)
| NextError (message : string) (statusCode : Z).  (** [next(new AppError(m, c))] *)

(** ** src/controllers/notificationController.js: notifications *)

Module NotificationController.
(** The query [{ _id: req.params.id, user: req.user._id }]. *)
Definition ownedBy (id userId : ObjectId) (n : Notification.t) : bool :=
  String.eqb (Notification._id n) id && String.eqb (Notification.user n) userId.

(** The update [{ read: true }]. *)
Definition markRead (n : Notification.t) : Notification.t :=
  Notification.set_read (Some true) n.

Definition Notification_findOneAndUpdate (w : World)
    (filter : Notification.t -> bool)
    (update : Notification.t -> Notification.t) : M (option Notification.t) :=
  if negb (notificationStoreUp w) then throw (StoreError "query rejected")
  else
    docs ← gets notifications;
    let '(found, docs') := NotificationModel.findOneAndUpdate filter update docs in
    modify (set_notifications docs');;
    mret found.

Definition markNotificationAsRead (w : World) (id : ObjectId)
    (reqUser : User.t) : M Reply :=
  tryCatch
    (notification ← Notification_findOneAndUpdate w
                      (ownedBy id (User._id reqUser)) markRead;
     match notification with
     | None => mret (NextError "No notification found with that ID" 404)
     | Some n => mret (Json 200 (NotificationBody "success" n))
     end)
    (fun error => mret (NextError "Failed to mark notification as read" 500)).
End NotificationController.

(** ** ObjectId syntax and document rendering *)

Definition isHexDigit (c : ascii) : bool :=
  let n := N_of_ascii c in
  (((48 <=? n) && (n <=? 57)) || ((97 <=? n) && (n <=? 102))
   || ((65 <=? n) && (n <=? 70)))%N.

Fixpoint allHex (s : string) : bool :=
  match s with
  | EmptyString => true
  | String c r => isHexDigit c && allHex r
  end.

(** A string of 24 hexadecimal digits, which a query casts to an ObjectId. *)
Definition isObjectIdHex (s : string) : bool :=
  allHex s && Nat.eqb (String.length s) 24.

(** [doc.toString()] on a populated user document: the document rendered
    as an object (the selected paths [_id], [username], [email] between
    braces), not its id.  The layout inside the braces is that of the
    runtime's inspector and is not relied upon. *)
Definition documentToString (u : User.t) : string :=
  "{ _id: new ObjectId('" ++ User._id u ++ "'), username: '" ++ User.username u
  ++ "', email: '" ++ User.email u ++ "' }".
Arguments documentToString : simpl never.

(** The property names every object literal inherits from
    [Object.prototype]: [table[key]] is defined for them although the
    literal does not list them. *)
Definition objectPrototypeKeys : list string :=
  ["constructor"; "toString"; "toLocaleString"; "valueOf"; "hasOwnProperty";
   "isPrototypeOf"; "propertyIsEnumerable"; "__proto__"; "__defineGetter__";
   "__defineSetter__"; "__lookupGetter__"; "__lookupSetter__"].

(** ** src/controllers/notificationController.js: tickets

    [now] is the clock reading of the request ([new Date()], [Date.now]).
    The Ticket, Order and User collections are taken to answer every
    query; what can reject in a handler is [save] (validators, hook) and
    the calls into NotificationService.  Ids are keys of the collections:
    a request string that does not cast to an ObjectId makes the query
    itself reject, which is not modelled, so a property about an id that
    no document carries asks for [isObjectIdHex]. *)

Module TicketController.
Definition Ticket_findById (id : ObjectId) : M (option Ticket.t) :=
  gets (fun st => tickets st !! id).

(** An order as a query returns it: the Order model's pre(/^find/) hook
    populates [user], so that path holds the user document, or [null] when
    there is no such user. *)
Record PopulatedOrder := {
  storedOrder : Order.t;
  populatedUser : option User.t
}.

Definition Order_findById (id : ObjectId) : M (option PopulatedOrder) :=
  gets (fun st =>
    match orders st !! id with
    | Some o =>
        Some {| storedOrder := o;
                populatedUser :=
                  List.find (fun u => String.eqb (User._id u) (Order.user o))
                            (users st) |}
    | None => None
    end).

(** [User.findOne({ role: 'Senior Support', isActive: true })] *)
Definition User_findSeniorSupport : M (option User.t) :=
  gets (fun st =>
    List.find (fun u =>
      match User.role u, User.isActive u with
      | Some r, Some true => String.eqb r "Senior Support"
      | _, _ => false
      end) (users st)).

(** [ticket.save()]: the schema validators run first, then the
    pre('save') hook; a failure of either rejects and nothing is written.
    [timestamps: true] stamps [createdAt] on the first save. *)
Definition save (now : Date) (ticket : Ticket.t) : M Ticket.t :=
  if negb (Ticket.validate ticket) then
    throw (ValidationError "Ticket validation failed")
  else
    match Ticket.preSave now ticket with
    | (_, Some e) => throw e
    | (doc, None) =>
        let doc := match Ticket.createdAt doc with
                   | Some _ => doc
                   | None => Ticket.set_createdAt (Some now) doc
                   end in
        modify (fun st => set_tickets (<[Ticket._id doc := doc]> (tickets st)) st);;
        mret doc
    end.

(** [d17] and [boustaRIB] of lines 441-444. *)
Definition ticketPaymentDetails : PaymentDetails :=
  {| d17 := "21572385"; boustaRIB := "5359401743124212" |}.

(** [initialMessage || 'New ticket created'] *)
Definition initialContent (initialMessage : option string) : string :=
  match initialMessage with
  | Some s => if String.eqb s "" then "New ticket created" else s
  | None => "New ticket created"
  end.

(** [new Ticket({ ... })] of lines 433-445; [priority] and [metadata]
    take their schema defaults. *)
Definition newTicket (w : World) (now : Date) (existingOrder : Order.t)
    (reqUser : User.t) (initialMessage : option string) : Ticket.t :=
  Ticket.mk (freshId w) (Order._id existingOrder) (User._id reqUser)
    None None Open Medium
    [Message.mk (Some (User._id reqUser)) None
       (Some (initialContent initialMessage)) false false now]
    None None (Some ticketPaymentDetails) {| resolutionTime := None |} None.

(** [existingOrder.user] is the populated document: its [toString()] is
    compared with the requester's id, and raises when the path is [null]. *)
Definition createTicket (w : World) (now : Date) (order : ObjectId)
    (initialMessage : option string) (reqUser : User.t) : M Reply :=
  tryCatch
    (existingOrder ← Order_findById order;
     match existingOrder with
     | None => mret (Json 404 (MessageBody "Order not found"))
     | Some o =>
         orderUser ← match populatedUser o with
                     | Some u => mret (documentToString u)
                     | None => throw (TypeError "existingOrder.user is null")
                     end;
         if negb (String.eqb orderUser (User._id reqUser)) then
           mret (Json 404 (MessageBody "Order not found"))
         else
           let ticket := newTicket w now (storedOrder o) reqUser initialMessage in
           createdTicket ← save now ticket;
           NotificationService.notifyTicketCreation w createdTicket;;
           mret (Json 201 (TicketBody createdTicket))
     end)
    (fun error => mret (Json 400 (ErrorBody "Error creating ticket" error))).

(** Lines 544-552: the push and the reopen. *)
Definition appendMessage (now : Date) (content : option string)
    (reqUser : User.t) (ticket : Ticket.t) : Ticket.t :=
  let ticket := Ticket.push_message
                  (Message.mk (Some (User._id reqUser)) None content
                     false false now) ticket in
  if status_eqb (Ticket.status ticket) Closed
  then Ticket.set_status InProgress ticket
  else ticket.

Definition addTicketMessage (w : World) (now : Date) (id : ObjectId)
    (content : option string) (reqUser : User.t) : M Reply :=
  tryCatch
    (found ← Ticket_findById id;
     match found with
     | None => mret (Json 404 (MessageBody "Ticket not found"))
     | Some ticket =>
         if negb (String.eqb (Ticket.user ticket) (User._id reqUser))
            && negb (User.isAdmin reqUser) then
           mret (Json 403 (MessageBody "Not authorized to message this ticket"))
         else
           let ticket := appendMessage now content reqUser ticket in
           updatedTicket ← save now ticket;
           NotificationService.notifyTicketUpdate w updatedTicket reqUser;;
           mret (Json 200 (TicketBody updatedTicket))
     end)
    (fun error => mret (Json 400 (ErrorBody "Error adding message" error))).

(** A request value is truthy when it is present and not the empty
    string. *)
Definition truthy (v : option string) : option string :=
  match v with
  | Some s => if String.eqb s "" then None else Some s
  | None => None
  end.

(** [status && !validStatuses.includes(status)] *)
Definition invalidStatus (status : option string) : bool :=
  match truthy status with
  | Some s => match status_of_string s with Some _ => false | None => true end
  | None => false
  end.

(** [status || ticket.status], for a status that passed the check. *)
Definition statusOr (status : option string) (current : Status) : Status :=
  match truthy status with
  | Some s => default current (status_of_string s)
  | None => current
  end.

Definition updateTicketStatus (now : Date) (id : ObjectId)
    (status assignedStaff : option string) (reqUser : User.t) : M Reply :=
  tryCatch
    (found ← Ticket_findById id;
     match found with
     | None => mret (Json 404 (MessageBody "Ticket not found"))
     | Some ticket =>
         if invalidStatus status then
           mret (Json 400 (MessageBody "Invalid ticket status"))
         else
           let ticket := Ticket.set_status
                           (statusOr status (Ticket.status ticket)) ticket in
           (* the staff block: an early reply, or the document to save *)
           staffed ← match truthy assignedStaff with
                      | Some staffId =>
                          if User.isAdmin reqUser then
                            staffUser ← NotificationService.User_findById staffId;
                            match staffUser with
                            | None => mret (inl (Json 404 (MessageBody "Staff member not found")))
                            | Some _ => mret (inr (Ticket.set_assignedStaff (Some staffId) ticket))
                            end
                          else mret (inr ticket)
                      | None => mret (inr ticket)
                      end;
           match staffed with
           | inl reply => mret reply
           | inr ticket =>
               updatedTicket ← save now ticket;
               NotificationService.notifyTicketStatusUpdate updatedTicket reqUser;;
               mret (Json 200 (TicketBody updatedTicket))
           end
     end)
    (fun error => mret (Json 400 (ErrorBody "Error updating ticket" error))).

Definition twentyFourHours : Z := 24 * 60 * 60 * 1000.

(** [ticketAge > twentyFourHours && ticket.status === 'Open']; the
    subtraction is NaN, and the test false, without a [createdAt]. *)
Definition dueForEscalation (now : Date) (ticket : Ticket.t) : bool :=
  match Ticket.createdAt ticket with
  | Some created => (twentyFourHours <? now - created)
  | None => false
  end && status_eqb (Ticket.status ticket) Open.

(** Lines 757-777: what the handler does to the loaded document. *)
Definition escalation (now : Date) (seniorSupport : option User.t)
    (ticket : Ticket.t) : Ticket.t :=
  let ticket := Ticket.set_status InProgress (Ticket.set_priority High ticket) in
  let ticket := match seniorSupport with
                | Some s => Ticket.set_assignedStaff (Some (User._id s)) ticket
                | None => ticket
                end in
  Ticket.push_message
    (Message.mk None None
       (Some "Ticket automatically escalated due to prolonged open status")
       false true now) ticket.

Definition escalateTicket (now : Date) (id : ObjectId) : M Reply :=
  tryCatch
    (found ← Ticket_findById id;
     match found with
     | None => mret (Json 404 (MessageBody "Ticket not found"))
     | Some ticket =>
         ticket ← (if dueForEscalation now ticket then
                      seniorSupport ← User_findSeniorSupport;
                      mret (escalation now seniorSupport ticket)
                    else mret ticket);
         escalatedTicket ← save now ticket;
         NotificationService.notifyTicketEscalation escalatedTicket;;
         mret (Json 200 (TicketBody escalatedTicket))
     end)
    (fun error => mret (Json 400 (ErrorBody "Error escalating ticket" error))).
End TicketController.

(** ** Ticket.js: the virtuals [age] and [ticketAge] *)

Module TicketVirtual.
Definition oneDay : Z := 1000 * 60 * 60 * 24.

(** [Math.floor((Date.now() - this.createdAt) / oneDay)]; NaN ([None])
    without a [createdAt].  On integers the floor of the quotient is
    [Z.div]. *)
Definition age (now : Date) (t : Ticket.t) : option Z :=
  match Ticket.createdAt t with
  | Some created => Some ((now - created) / oneDay)
  | None => None
  end.

(** [this.createdAt ? (new Date() - this.createdAt) : null] *)
Definition ticketAge (now : Date) (t : Ticket.t) : option Z :=
  match Ticket.createdAt t with
  | Some created => Some (now - created)
  | None => None
  end.
End TicketVirtual.

(** ** webSocketService.js: ticket events (lines 104-131)

    The result is the list of [emit] calls, in order. *)

Module TicketEvents.
(** [User.find({ isAdmin: true })], mapped to the registered sockets. *)
Definition getAdminSockets (st : State) : list Socket :=
  omap (fun admin => userSockets st !! User._id admin)
       (List.filter User.isAdmin (users st)).

Definition socketOf (st : State) (userId : ObjectId) : list Socket :=
  match userSockets st !! userId with
  | Some socket => [socket]
  | None => []
  end.

Definition notifyTicketUpdate (st : State) (ticket : Ticket.t)
  : list (Socket * string * Ticket.t) :=
  let event (socket : Socket) := (socket, "ticket_updated", ticket) in
  (List.map event (socketOf st (Ticket.user ticket))
   ++ List.map event
        (match Ticket.assignedStaff ticket with
         | Some staff => socketOf st staff
         | None => []
         end)
   ++ List.map event (getAdminSockets st))%list.
End TicketEvents.

(** ** notificationController.js: clearAllNotifications (lines 65-76) *)

Module NotificationCleanup.
Inductive ClearReply :=
| StatusJson (statusCode : Z) (status : string)  (** [res.status(c).json({ status, data: null })] *)
| ClearError (message : string) (statusCode : Z). (** [next(new AppError(m, c))] *)

(** [Notification.deleteMany(filter)] *)
Definition Notification_deleteMany (w : World) (filter : Notification.t -> bool)
  : M unit :=
  if negb (notificationStoreUp w) then throw (StoreError "query rejected")
  else modify (fun st =>
         set_notifications
           (List.filter (fun n => negb (filter n)) (notifications st)) st).

Definition ownedByUser (userId : ObjectId) (n : Notification.t) : bool :=
  String.eqb (Notification.user n) userId.

Definition clearAllNotifications (w : World) (reqUser : User.t) : M ClearReply :=
  tryCatch
    (Notification_deleteMany w (ownedByUser (User._id reqUser));;
     mret (StatusJson 204 "success"))
    (fun error => mret (ClearError "Failed to clear notifications" 500)).
End NotificationCleanup.

(** ** Reading a ticket: ticketMiddleware.checkTicketAccess (lines 5-36)
    and getTicketById (controller lines 464-487), chained as
    [router.get('/:id', protect, checkTicketAccess, getTicketById)].

    [populate('user')] replaces [ticket.user] by the user document, or by
    [null] when there is none; the reply body is the stored ticket. *)

Module TicketAccess.
(** [inl reply]: the middleware answered; [inr ticket]: it called
    [next()] with [req.ticket = ticket]. *)
Definition checkTicketAccess (ticketId : ObjectId) (reqUser : User.t)
  : M (Reply + Ticket.t) :=
  tryCatch
    (found ← TicketController.Ticket_findById ticketId;
     match found with
     | None => mret (inl (Json 404 (MessageBody "Ticket not found")))
     | Some ticket =>
         owner ← NotificationService.User_findById (Ticket.user ticket);
         if match User.role reqUser with
            | Some r => String.eqb r "admin"
            | None => false
            end
         then mret (inr ticket)
         else
           match owner with
           | None => throw (TypeError "ticket.user is null")
           | Some o =>
               if negb (String.eqb (User._id o) (User._id reqUser)) then
                 mret (inl (Json 403 (MessageBody "Unauthorized access to ticket")))
               else mret (inr ticket)
           end
     end)
    (fun error => mret (inl (Json 500 (ErrorBody "Error checking ticket access" error)))).

Definition getTicketById (id : ObjectId) (reqUser : User.t) : M Reply :=
  tryCatch
    (found ← TicketController.Ticket_findById id;
     match found with
     | None => mret (Json 404 (MessageBody "Ticket not found"))
     | Some ticket =>
         owner ← NotificationService.User_findById (Ticket.user ticket);
         match owner with
         | None => throw (TypeError "ticket.user is null")
         | Some o =>
             if negb (String.eqb (User._id o) (User._id reqUser))
                && negb (User.isAdmin reqUser) then
               mret (Json 403 (MessageBody "Not authorized to view this ticket"))
             else mret (Json 200 (TicketBody ticket))
         end
     end)
    (fun error => mret (Json 500 (ErrorBody "Error fetching ticket" error))).

(** The route: the controller runs only if the middleware called [next()]. *)
Definition getTicketRoute (id : ObjectId) (reqUser : User.t) : M Reply :=
  checked ← checkTicketAccess id reqUser;
  match checked with
  | inl reply => mret reply
  | inr _ => getTicketById id reqUser
  end.
End TicketAccess.

(** ** ticketMiddleware.rateLimitTicketOperations (lines 86-110) *)

Module RateLimit.
Definition fiveMinutes : Z := 5 * 60 * 1000.

(** ['messages.sender': userId]: some message of the ticket is from the
    user. *)
Definition hasMessageFrom (userId : ObjectId) (t : Ticket.t) : bool :=
  existsb (fun m => match Message.sender m with
                    | Some s => String.eqb s userId
                    | None => false
                    end) (Ticket.messages t).

(** ['messages.createdAt': { $gte: since }]: some message of the ticket is
    that recent.  The two conditions of the query are separate paths, each
    met by some element of [messages]. *)
Definition hasMessageSince (since : Date) (t : Ticket.t) : bool :=
  existsb (fun m => since <=? Message.createdAt m) (Ticket.messages t).

(** [Ticket.countDocuments(query)]: the number of tickets that match. *)
Definition Ticket_countDocuments (query : Ticket.t -> bool) : M nat :=
  gets (fun st => size (filter (fun kv => Is_true (query kv.2)) (tickets st))).

(** [inl reply]: the middleware answered; [inr tt]: it called [next()]. *)
Definition rateLimitTicketOperations (now : Date) (reqUser : User.t)
  : M (Reply + unit) :=
  tryCatch
    (recentMessages ← Ticket_countDocuments
         (fun t => hasMessageFrom (User._id reqUser) t
                   && hasMessageSince (now - fiveMinutes) t);
     if (10 <=? recentMessages)%nat then
       mret (inl (Json 429 (MessageBody
         "Too many messages sent. Please wait before sending more.")))
     else mret (inr tt))
    (fun error => mret (inl (Json 500
       (ErrorBody "Error rate limiting ticket operations" error)))).
End RateLimit.

(** ** Vocabulary of the properties *)

(** The message has a text ([msg.message] is defined). *)
Definition hasText (m : Message.t) : Prop := is_Some (Message.message m).

(** A message whose text mentions one of the two keywords, in any case. *)
Definition mentionsUrgency (m : Message.t) : Prop :=
  exists s, Message.message m = Some s /\
    (JsString.containsIgnoringCase s "urgent"
     \/ JsString.containsIgnoringCase s "emergency").

(** The Ticket invariant of the data model: a Closed ticket has its
    [closedAt]. *)
Definition closedHasClosedAt (t : Ticket.t) : Prop :=
  Ticket.status t = Closed -> is_Some (Ticket.closedAt t).

(** ** A small help desk, for concrete runs *)

Module Desk.
Definition alice : User.t :=
  User.mk "u-alice" "alice" "alice@example.com" false None None.
Definition root : User.t :=
  User.mk "u-root" "root" "root@example.com" true None None.
Definition sam : User.t :=
  User.mk "u-sam" "sam" "sam@example.com" false (Some "Senior Support") (Some true).

Definition needHelp : Message.t :=
  Message.mk (Some "u-alice") (Some "Need help") None false false 1000.
Definition staffReply : Message.t :=
  Message.mk (Some "u-root") (Some "Refund issued") None true false 1500.
Definition urgentRefund : Message.t :=
  Message.mk (Some "u-alice") (Some "URGENT need refund") None false false 1000.

Definition blank (id : ObjectId) (s : Status) (p : Priority)
    (ms : list Message.t) (closed : option Date) : Ticket.t :=
  Ticket.mk id "o-123" "u-alice" (Some "Refund") (Some "Where is my refund?")
    s p ms None closed None {| resolutionTime := None |} (Some 1000).

(** Open, one message from its owner, created at t = 1000 ms. *)
Definition openTicket : Ticket.t := blank "t-open" Open Medium [needHelp] None.
(** Closed at t = 2000 ms. *)
Definition closedTicket : Ticket.t :=
  blank "t-closed" Closed Medium [needHelp; staffReply] (Some 2000).
(** Open, and only staff wrote. *)
Definition staffOnlyTicket : Ticket.t := blank "t-staff" Open Medium [staffReply] None.
Definition urgentTicket : Ticket.t := blank "t-urgent" Open Low [urgentRefund] None.

Definition welcome : Notification.t :=
  Notification.mk "n-0" "u-alice" (Some "t-open") "TICKET_CREATED"
    "Your ticket #t-open has been created successfully." false None.

Definition state : State :=
  mkState
    (<["t-open" := openTicket]> (<["t-closed" := closedTicket]> ∅))
    (<["o-123" := Order.mk "o-123" "u-alice"]> ∅)
    [alice; root; sam]
    [welcome]
    (<["u-root" := "socket-7"]> ∅)
    [] [] [].

Definition world (storeUp push mail : bool) : World :=
  {| notificationStoreUp := storeUp; pushRaises := push; mailDelivers := mail;
     freshId := "n-1"; frontendUrl := "https://shop.example" |}.

(** 25 hours after [openTicket] was created. *)
Definition dayLater : Date := 1000 + 25 * 60 * 60 * 1000.
End Desk.

(** ** More of the help desk *)

Module Desk2.
(** A ticket that the admin root opened. *)
Definition rootTicket : Ticket.t :=
  Ticket.mk "t-root" "o-9" "u-root" (Some "Invoice") (Some "Invoice is missing")
    Open Medium [Message.mk (Some "u-root") (Some "Please resend") None false false 1200]
    None None None {| resolutionTime := None |} (Some 1200).

Definition rootNote : Notification.t :=
  Notification.mk "n-2" "u-root" (Some "t-root") "TICKET_CREATED"
    "Your ticket #t-root has been created successfully." false None.
Definition aliceNote : Notification.t :=
  Notification.mk "n-3" "u-alice" (Some "t-open") "TICKET_UPDATED"
    "Your ticket #t-open has been updated." false None.

(** The desk with three stored notifications, two of them alice's. *)
Definition inbox : State :=
  set_notifications [Desk.welcome; rootNote; aliceNote] Desk.state.

(** The desk with "t-staff" stored as well. *)
Definition withStaffTicket : State :=
  set_tickets (<["t-staff" := Desk.staffOnlyTicket]> (tickets Desk.state)) Desk.state.

(** A shop whose documents carry ids as the database generates them: the
    customer carol, the admin dana, carol's order and her ticket on it. *)
Definition carol : User.t :=
  User.mk "507f1f77bcf86cd799439011" "carol" "carol@example.com" false None None.
Definition dana : User.t :=
  User.mk "507f191e810c19729de860ea" "dana" "dana@example.com" true None None.
Definition carolOrder : Order.t :=
  Order.mk "64a7f0c2e4b0a1b2c3d4e5f6" "507f1f77bcf86cd799439011".
Definition carolTicket : Ticket.t :=
  Ticket.mk "65b8a1d3f5c6b7a8d9e0f1a2" "64a7f0c2e4b0a1b2c3d4e5f6"
    "507f1f77bcf86cd799439011" (Some "Parcel") (Some "The parcel never arrived")
    Open Medium
    [Message.mk (Some "507f1f77bcf86cd799439011") (Some "Where is it?") None
       false false 1000]
    None None None {| resolutionTime := None |} (Some 1000).

Definition shop : State :=
  mkState
    (<["65b8a1d3f5c6b7a8d9e0f1a2" := carolTicket]> ∅)
    (<["64a7f0c2e4b0a1b2c3d4e5f6" := carolOrder]> ∅)
    [carol; dana]
    [] ∅ [] [] [].
End Desk2.

Ltac run_dispatch :=
  unfold NotificationService.sendNotification,
    NotificationService.createInAppNotification,
    NotificationService.sendEmailNotification,
    NotificationModel.createNotification,
    WebSocketService.broadcastNotification, WebSocketService.emit,
    console_error, tryCatch, mbind, M_bind, bind, mret, M_ret, ret, throw,
    gets, modify;
  simpl.

Ltac run_handler :=
  unfold TicketController.Ticket_findById, TicketController.Order_findById,
    TicketController.User_findSeniorSupport,
    NotificationService.notifyTicketStatusUpdate,
    NotificationService.notifyTicketEscalation,
    NotificationService.User_findById,
    tryCatch, mbind, M_bind, bind, mret, M_ret, ret, throw, gets, modify;
  simpl.

(** * Properties *)

(** ** String search *)

Section StringFacts.
Import JsString.

Lemma startsWith_spec kw : forall s,
  startsWith s kw = true <-> exists post, s = kw ++ post.
Proof.
  induction kw as [|k kw IH]; intros s; simpl.
  - split; [intros _; exists s; reflexivity | reflexivity].
  - destruct s as [|c s]; simpl.
    + split; [discriminate | intros [post H]; discriminate].
    + rewrite andb_true_iff, Ascii.eqb_eq, IH. split.
      * intros [-> [post ->]]. exists post. reflexivity.
      * intros [post H]. injection H as -> ->. split; [reflexivity | eauto].
Qed.

Lemma includes_spec kw : forall s,
  includes s kw = true <-> exists pre post, s = pre ++ kw ++ post.
Proof.
  induction s as [|c s IH]; simpl; rewrite orb_true_iff, startsWith_spec.
  - split.
    + intros [[post H] | H]; [|discriminate]. exists "", post. exact H.
    + intros (pre & post & H). left. destruct pre; simpl in H; [eauto | discriminate].
  - rewrite IH. split.
    + intros [[post H] | (pre & post & H)].
      * exists "", post. exact H.
      * exists (String c pre), post. simpl. rewrite H. reflexivity.
    + intros (pre & post & H). destruct pre as [|p pre]; simpl in H.
      * left. eauto.
      * right. injection H as -> ->. eauto.
Qed.

Lemma toLowerCase_app a b :
  toLowerCase (a ++ b) = toLowerCase a ++ toLowerCase b.
Proof. induction a as [|c a IH]; simpl; [reflexivity | rewrite IH; reflexivity]. Qed.

Lemma toLowerCase_split a : forall s b,
  toLowerCase s = a ++ b ->
  exists a' b', s = a' ++ b' /\ toLowerCase a' = a /\ toLowerCase b' = b.
Proof.
  induction a as [|c a IH]; intros s b H; simpl in H.
  - exists "", s. auto.
  - destruct s as [|d s]; simpl in H; [discriminate|].
    injection H as Hc Hs. destruct (IH _ _ Hs) as (a' & b' & -> & Ha & Hb).
    exists (String d a'), b'. simpl. rewrite Hc, Ha. auto.
Qed.

(** The hook's test [text.toLowerCase().includes(kw)] is the
    case-insensitive search for [kw]. *)
Lemma includes_toLowerCase s kw :
  includes (toLowerCase s) kw = true <-> containsIgnoringCase s kw.
Proof.
  rewrite includes_spec. unfold containsIgnoringCase. split.
  - intros (pre & post & H).
    destruct (toLowerCase_split _ _ _ H) as (pre' & rest & -> & _ & Hrest).
    destruct (toLowerCase_split _ _ _ Hrest) as (mid & post' & -> & Hmid & _).
    eauto.
  - intros (pre & mid & post & -> & Hmid).
    exists (toLowerCase pre), (toLowerCase post).
    rewrite !toLowerCase_app, Hmid. reflexivity.
Qed.
End StringFacts.

(** ** The pre('save') hook *)

Section HookFacts.
Import Ticket.

Lemma isUrgentText_spec s :
  isUrgentText s = true <->
  JsString.containsIgnoringCase s "urgent"
  \/ JsString.containsIgnoringCase s "emergency".
Proof.
  unfold isUrgentText.
  rewrite orb_true_iff, !includes_toLowerCase. reflexivity.
Qed.

Lemma autoClose_messages now d : messages (autoClose now d) = messages d.
Proof. unfold autoClose. destruct (_ && _); reflexivity. Qed.

Lemma autoClose_priority now d : priority (autoClose now d) = priority d.
Proof. unfold autoClose. destruct (_ && _); reflexivity. Qed.

Lemma autoClose_id now d : _id (autoClose now d) = _id d.
Proof. unfold autoClose. destruct (_ && _); reflexivity. Qed.

Lemma autoClose_paymentDetails now d :
  paymentDetails (autoClose now d) = paymentDetails d.
Proof. unfold autoClose. destruct (_ && _); reflexivity. Qed.

Lemma autoClose_fires now d :
  messages d <> [] ->
  forallb Message.isAdmin (messages d) = true ->
  status d <> Closed ->
  autoClose now d =
    set_metadata {| resolutionTime := Some now |}
      (set_closedAt (Some now) (set_status Closed d)).
Proof.
  intros Hne Hall Hst. unfold autoClose. rewrite Hall.
  destruct (messages d); [congruence|].
  destruct (status d); try congruence; reflexivity.
Qed.

(** On messages that all carry a text the filter does not raise, and it
    keeps a message exactly when one does mention urgency. *)
Lemma urgentMessages_hasText ms :
  Forall hasText ms ->
  exists keep, urgentMessages ms = inr keep /\
    (keep <> [] <-> Exists mentionsUrgency ms).
Proof.
  induction 1 as [|m ms [s Hs] _ (keep & Hk & IH)]; simpl.
  - exists []. split; [reflexivity|]. split; [congruence|]. inversion 1.
  - rewrite Hs, Hk. destruct (isUrgentText s) eqn:Hu.
    + exists (m :: keep). split; [reflexivity|]. split; [|congruence].
      intros _. left. exists s. split; [exact Hs|]. apply isUrgentText_spec, Hu.
    + exists keep. split; [reflexivity|]. rewrite IH. split.
      * intros Hex. right. exact Hex.
      * inversion 1 as [? ? (s' & Hs' & Hm)|]; subst; [|assumption].
        rewrite Hs in Hs'. injection Hs' as <-.
        apply isUrgentText_spec in Hm. congruence.
Qed.

(** The filter raises as soon as one message has no text. *)
Lemma urgentMessages_raises ms :
  Exists (fun m => Message.message m = None) ms ->
  exists e, urgentMessages ms = inl e.
Proof.
  induction 1 as [m ms Hm | m ms _ (e & IH)]; simpl.
  - rewrite Hm. eauto.
  - destruct (Message.message m); [rewrite IH|]; eauto.
Qed.

Lemma preSave_priority_rank now d :
  priority_rank (priority d) <= priority_rank (priority (fst (preSave now d))).
Proof.
  unfold preSave. destruct (urgentMessages _) as [e|keep]; simpl.
  - rewrite autoClose_priority. lia.
  - destruct (_ && _); simpl; rewrite ?autoClose_priority; [|lia].
    destruct (priority d); simpl; lia.
Qed.

Lemma preSave_id now d : _id (fst (preSave now d)) = _id d.
Proof.
  unfold preSave. destruct (urgentMessages _); simpl;
    [|destruct (_ && _); simpl]; apply autoClose_id.
Qed.

Lemma preSave_paymentDetails now d :
  paymentDetails (fst (preSave now d)) = paymentDetails d.
Proof.
  unfold preSave. destruct (urgentMessages _); simpl;
    [|destruct (_ && _); simpl]; apply autoClose_paymentDetails.
Qed.

(** The urgency block leaves [status] and [closedAt] as the auto-close
    block set them. *)
Lemma preSave_status_closedAt now d :
  status (fst (preSave now d)) = status (autoClose now d)
  /\ closedAt (fst (preSave now d)) = closedAt (autoClose now d).
Proof.
  unfold preSave. destruct (urgentMessages _); simpl;
    [|destruct (_ && _); simpl]; auto.
Qed.

Lemma validate_hasText d : validate d = true -> Forall hasText (messages d).
Proof.
  unfold validate. rewrite !andb_true_iff, forallb_forall. intros [_ H].
  apply Forall_forall. intros m Hm. apply list_elem_of_In, H in Hm.
  unfold validateMessage in Hm. apply andb_true_iff in Hm as [_ Hm].
  unfold hasText. destruct (Message.message m); [eauto | discriminate].
Qed.

Lemma preSave_hasText now d :
  Forall hasText (messages d) -> snd (preSave now d) = None.
Proof.
  intros H. unfold preSave. rewrite autoClose_messages.
  destruct (urgentMessages_hasText _ H) as (keep & -> & _). reflexivity.
Qed.
End HookFacts.

(** ** [save] *)

Section SaveFacts.
Import Ticket TicketController.

(** A document that passes the validators is written, as the hook left
    it, under its own [_id]. *)
Lemma save_valid now d st :
  validate d = true ->
  exists doc,
    save now d st = (inr doc, set_tickets (<[_id d := doc]> (tickets st)) st)
    /\ status doc = status (fst (preSave now d))
    /\ priority doc = priority (fst (preSave now d))
    /\ closedAt doc = closedAt (fst (preSave now d))
    /\ messages doc = messages d.
Proof.
  intros Hv. unfold save. rewrite Hv. simpl.
  pose proof (preSave_hasText now d (validate_hasText _ Hv)) as Hnext.
  pose proof (preSave_id now d) as Hid.
  assert (Hm : messages (fst (preSave now d)) = messages d).
  { unfold preSave. destruct (urgentMessages _); simpl;
      [|destruct (_ && _); simpl]; apply autoClose_messages. }
  destruct (preSave now d) as [doc r]. simpl in *. subst r.
  destruct (createdAt doc) eqn:Hc.
  - exists doc. rewrite Hid. auto.
  - exists (set_createdAt (Some now) doc). simpl. rewrite Hid. auto.
Qed.

(** A document with a message that lacks [sender] or [message] is
    rejected and the state is left as it was. *)
Lemma save_invalid now d st :
  validate d = false ->
  save now d st = (inl (ValidationError "Ticket validation failed"), st).
Proof. intros Hv. unfold save. rewrite Hv. reflexivity. Qed.
End SaveFacts.

(** ** Auto-close and urgency escalation on save *)

(** C2.  A ticket with a non-empty message list, all of whose messages are
    flagged [isAdmin], and whose status is not Closed, leaves the
    pre('save') hook with status Closed and [closedAt] equal to the current
    time; [save], which takes neither an actor nor an operation, then
    writes exactly that document whenever the ticket passes the schema
    validators. *)
Theorem save_auto_closes (now : Date) (t : Ticket.t) :
  Ticket.messages t <> [] ->
  forallb Message.isAdmin (Ticket.messages t) = true ->
  Ticket.status t <> Closed ->
  (Ticket.status (fst (Ticket.preSave now t)) = Closed
   /\ Ticket.closedAt (fst (Ticket.preSave now t)) = Some now)
  /\ (Forall hasText (Ticket.messages t) -> snd (Ticket.preSave now t) = None)
  /\ (Ticket.validate t = true ->
      forall st, exists doc,
        TicketController.save now t st
        = (inr doc, set_tickets (<[Ticket._id t := doc]> (tickets st)) st)
        /\ Ticket.status doc = Closed /\ Ticket.closedAt doc = Some now).
Proof.
  intros Hne Hall Hst.
  destruct (preSave_status_closedAt now t) as [Hs Hc].
  rewrite (autoClose_fires now t Hne Hall Hst) in Hs, Hc. simpl in Hs, Hc.
  split; [auto|]. split; [apply preSave_hasText|].
  intros Hv st. destruct (save_valid now t st Hv) as (doc & E & Hds & _ & Hdc & _).
  exists doc. rewrite Hds, Hdc. auto.
Qed.

(** The urgency rule where the hook can read every message.  The hook
    never lowers the priority, and keeps Urgent once set;
    on a ticket whose messages all carry a text (the schema path
    [message], which is what the hook reads) it completes, and if some
    message text contains "urgent" or "emergency" in any letter case the
    priority is Urgent afterwards, also in the document [save] writes;
    without such a text the priority is left as it was. *)
Theorem save_escalates_urgent (now : Date) (t : Ticket.t) :
  (priority_rank (Ticket.priority t)
     <= priority_rank (Ticket.priority (fst (Ticket.preSave now t)))
   /\ (Ticket.priority t = Urgent ->
       Ticket.priority (fst (Ticket.preSave now t)) = Urgent))
  /\ (Forall hasText (Ticket.messages t) ->
      snd (Ticket.preSave now t) = None
      /\ (Exists mentionsUrgency (Ticket.messages t) ->
          Ticket.priority (fst (Ticket.preSave now t)) = Urgent)
      /\ (~ Exists mentionsUrgency (Ticket.messages t) ->
          Ticket.priority (fst (Ticket.preSave now t)) = Ticket.priority t))
  /\ (Ticket.validate t = true ->
      Exists mentionsUrgency (Ticket.messages t) ->
      forall st, exists doc,
        TicketController.save now t st
        = (inr doc, set_tickets (<[Ticket._id t := doc]> (tickets st)) st)
        /\ Ticket.priority doc = Urgent).
Proof.
  pose proof (preSave_priority_rank now t) as Hrank.
  assert (Hmain : Forall hasText (Ticket.messages t) ->
      snd (Ticket.preSave now t) = None
      /\ (Exists mentionsUrgency (Ticket.messages t) ->
          Ticket.priority (fst (Ticket.preSave now t)) = Urgent)
      /\ (~ Exists mentionsUrgency (Ticket.messages t) ->
          Ticket.priority (fst (Ticket.preSave now t)) = Ticket.priority t)).
  { intros Htext. split; [apply preSave_hasText, Htext|].
    unfold Ticket.preSave. rewrite autoClose_messages.
    destruct (urgentMessages_hasText _ Htext) as (keep & -> & Hkeep).
    rewrite autoClose_priority. split.
    - intros Hex. apply Hkeep in Hex. destruct keep; [congruence|]. simpl.
      destruct (Ticket.priority t) eqn:Hp; simpl;
        rewrite ?autoClose_priority; auto.
    - intros Hno. destruct keep as [|m keep]; simpl.
      + apply autoClose_priority.
      + exfalso. apply Hno, Hkeep. congruence. }
  split; [split; [exact Hrank|]|split; [exact Hmain|]].
  - intros Hu. rewrite Hu in Hrank.
    destruct (Ticket.priority (fst (Ticket.preSave now t))); simpl in Hrank; auto; lia.
  - intros Hv Hex st.
    destruct (save_valid now t st Hv) as (doc & E & _ & Hp & _).
    exists doc. split; [exact E|]. rewrite Hp.
    apply Hmain; [apply validate_hasText, Hv | exact Hex].
Qed.

(** ** Connection registry *)

(** C8.  [broadcastNotification] for an actor without an entry in
    [userSockets] completes without raising and leaves the whole state,
    registry included, as it was. *)
Theorem broadcast_unregistered_noop (st : State) (actorId : ObjectId)
    (n : Notification.t) :
  userSockets st !! actorId = None ->
  WebSocketService.broadcastNotification actorId n st = (inr tt, st).
Proof.
  intros Hnone. unfold WebSocketService.broadcastNotification.
  unfold mbind, M_bind, bind, gets. rewrite Hnone. reflexivity.
Qed.

(** A registered actor does get the event, on the socket registered last. *)
Lemma broadcast_registered (st : State) (actorId : ObjectId) (sock : Socket)
    (n : Notification.t) :
  userSockets st !! actorId = Some sock ->
  WebSocketService.broadcastNotification actorId n st
  = (inr tt, set_emitted (emitted st ++ [(sock, "new_notification", n)]) st).
Proof.
  intros Hs. unfold WebSocketService.broadcastNotification.
  unfold mbind, M_bind, bind, gets. rewrite Hs. reflexivity.
Qed.

Lemma onDisconnect_unregisters (st : State) (actorId : ObjectId) :
  userSockets (snd (WebSocketService.onDisconnect actorId st)) !! actorId = None.
Proof. simpl. apply lookup_delete_eq. Qed.

(** ** markNotificationAsRead *)

Section FindOneAndUpdate.
Import NotificationModel.
Variables (filter : Notification.t -> bool)
          (update : Notification.t -> Notification.t).

Lemma findOneAndUpdate_none docs :
  (forall n, n ∈ docs -> filter n = false) ->
  findOneAndUpdate filter update docs = (None, docs).
Proof.
  induction docs as [|n docs IH]; intros H; simpl; [reflexivity|].
  rewrite (H n) by apply list_elem_of_here.
  rewrite IH; [reflexivity|]. intros m Hm. apply H. by apply list_elem_of_further.
Qed.

Lemma findOneAndUpdate_some docs n' docs' :
  findOneAndUpdate filter update docs = (Some n', docs') ->
  exists n, n ∈ docs /\ filter n = true /\ n' = update n.
Proof.
  revert docs'. induction docs as [|n docs IH]; intros docs'; simpl; [discriminate|].
  destruct (filter n) eqn:Hf.
  - intros [= <- <-]. exists n. split; [apply list_elem_of_here | auto].
  - destruct (findOneAndUpdate filter update docs) as [found rest] eqn:E.
    intros [= -> <-]. destruct (IH _ eq_refl) as (m & Hm & Hfm & Hu).
    exists m. split; [by apply list_elem_of_further | auto].
Qed.
End FindOneAndUpdate.

Lemma set_notifications_same st : set_notifications (notifications st) st = st.
Proof. destruct st; reflexivity. Qed.

(** C10.  [markNotificationAsRead] answers with a notification only when
    that notification has the requested id and belongs to the requesting
    user.  When no stored notification has both (in particular when the id
    is that of another user's notification) no record is modified, and the
    answer, once the query completes, is the 404 "No notification found
    with that ID", never a 403. *)
Theorem markNotificationAsRead_owner_only (w : World) (id : ObjectId)
    (reqUser : User.t) (st : State) :
  (forall code s n,
      fst (NotificationController.markNotificationAsRead w id reqUser st)
      = inr (Json code (NotificationBody s n)) ->
      Notification._id n = id /\ Notification.user n = User._id reqUser)
  /\ ((forall n, n ∈ notifications st -> Notification._id n = id ->
                 Notification.user n <> User._id reqUser) ->
      snd (NotificationController.markNotificationAsRead w id reqUser st) = st
      /\ (notificationStoreUp w = true ->
          fst (NotificationController.markNotificationAsRead w id reqUser st)
          = inr (NextError "No notification found with that ID" 404))
      /\ (forall b, fst (NotificationController.markNotificationAsRead w id reqUser st)
                    <> inr (Json 403 b))).
Proof.
  unfold NotificationController.markNotificationAsRead,
    NotificationController.Notification_findOneAndUpdate.
  destruct (notificationStoreUp w) eqn:Hup; simpl.
  2:{ split; [intros ? ? ? [=]|]. intros _. repeat split; [discriminate|].
      intros b [=]. }
  unfold tryCatch, mbind, M_bind, bind, gets, modify, mret, M_ret, ret. simpl.
  destruct (NotificationModel.findOneAndUpdate _ _ (notifications st))
    as [found docs'] eqn:E. simpl.
  split.
  - destruct found as [n'|]; simpl; [|intros ? ? ? [=]].
    intros code s n [= _ _ <-].
    destruct (findOneAndUpdate_some _ _ _ _ _ E)
      as (n0 & _ & Hf & ->).
    unfold NotificationController.ownedBy in Hf.
    apply andb_true_iff in Hf as [H1 H2].
    apply String.eqb_eq in H1, H2. simpl. auto.
  - intros Hother.
    rewrite findOneAndUpdate_none in E.
    + injection E as <- <-. simpl. rewrite set_notifications_same.
      repeat split. intros b [=].
    + intros n Hn. unfold NotificationController.ownedBy.
      destruct (String.eqb (Notification._id n) id) eqn:H1; [|reflexivity].
      apply String.eqb_eq in H1. simpl. apply String.eqb_neq. auto.
Qed.

(** ** Notification dispatch *)

Section DispatchFacts.
Import NotificationModel NotificationService.

Lemma lookupOr_cases table type fallback :
  lookupOr table type fallback = fallback
  \/ In (lookupOr table type fallback) (List.map snd table).
Proof.
  unfold lookupOr. destruct (List.find _ table) as [kv|] eqn:E; [right | left; reflexivity].
  apply List.find_some in E as [Hin _]. apply List.in_map, Hin.
Qed.

Lemma getNotificationMessage_nonempty ticket type :
  String.eqb (getNotificationMessage ticket type) "" = false.
Proof.
  unfold getNotificationMessage.
  destruct (lookupOr_cases (messageTable (Ticket._id ticket)) type
              "You have a ticket notification.") as [-> | H]; [reflexivity|].
  simpl in H. repeat (destruct H as [<- | H]; [reflexivity|]). destruct H.
Qed.

Lemma validate_notificationData u ticket type :
  Notification.validate (notificationData u ticket type)
  = existsb (String.eqb type) Notification.typeEnum.
Proof.
  unfold Notification.validate, notificationData. simpl.
  rewrite getNotificationMessage_nonempty. simpl. apply andb_true_r.
Qed.

(** [create] rejects exactly when a validator fails or the store does
    not take the insert; nothing is written then. *)
Lemma create_rejects w d st e :
  fst (create w d st) = inl e ->
  Notification.validate d && notificationStoreUp w = false /\ create w d st = (inl e, st).
Proof.
  unfold create. destruct (Notification.validate d); simpl.
  - destruct (notificationStoreUp w); simpl; [discriminate|].
    intros [= <-]. auto.
  - intros [= <-]. auto.
Qed.

Lemma create_accepts w d st :
  Notification.validate d && notificationStoreUp w = true ->
  create w d st
  = (inr (newDocument w d),
     set_notifications (notifications st ++ [newDocument w d]) st).
Proof.
  intros H. apply andb_true_iff in H as [Hv Hup].
  unfold create. rewrite Hv, Hup. reflexivity.
Qed.

Lemma create_total w d st :
  (exists e, create w d st = (inl e, st)
             /\ Notification.validate d && notificationStoreUp w = false)
  \/ (create w d st
      = (inr (newDocument w d),
         set_notifications (notifications st ++ [newDocument w d]) st)
      /\ Notification.validate d && notificationStoreUp w = true).
Proof.
  destruct (Notification.validate d && notificationStoreUp w) eqn:H.
  - right. split; [apply create_accepts, H | reflexivity].
  - left. unfold create. apply andb_false_iff in H.
    destruct (Notification.validate d); simpl; [|eauto].
    destruct H as [H|H]; [discriminate|]. rewrite H. simpl. eauto.
Qed.
End DispatchFacts.


Section DispatchOutcomes.
Import NotificationModel NotificationService.
Variables (w : World) (u : User.t) (ticket : Ticket.t) (type : string).

Lemma createInApp_persist_failure st e :
  create w (notificationData u ticket type) st = (inl e, st) ->
  createInAppNotification w (notificationData u ticket type) st
  = (inl (WrappedError "Failed to create notification: " e),
     set_console (console st ++ ["Error creating in-app notification:"]) st).
Proof. intros H. run_dispatch. rewrite H. reflexivity. Qed.

Lemma sendNotification_persist_failure st e :
  create w (notificationData u ticket type) st = (inl e, st) ->
  sendNotification w (Some u) ticket type st
  = (inr None,
     set_console (console st ++ ["Error creating in-app notification:";
                                 "Error sending notification:"]) st).
Proof.
  intros H. run_dispatch. rewrite H. simpl.
  unfold set_console. simpl. rewrite <- app_assoc. reflexivity.
Qed.

Lemma sendEmail_failure_swallowed st :
  mailDelivers w = false ->
  sendEmailNotification w u ticket type st
  = (inr tt, set_console (console st ++ ["Error sending email notification:"]) st).
Proof. intros H. run_dispatch. rewrite H. reflexivity. Qed.

Lemma sendEmailNotification_never_raises st :
  fst (sendEmailNotification w u ticket type st) = inr tt.
Proof. run_dispatch. destruct (mailDelivers w); reflexivity. Qed.

Lemma sendEmailNotification_notifications st :
  notifications (snd (sendEmailNotification w u ticket type st)) = notifications st.
Proof. run_dispatch. destruct (mailDelivers w); reflexivity. Qed.

(** With the record written and the push done, a failing mail transport
    still lets [sendNotification] return the notification. *)
Lemma sendNotification_mail_failure st :
  Notification.validate (notificationData u ticket type)
    && notificationStoreUp w = true ->
  pushRaises w = false ->
  mailDelivers w = false ->
  fst (sendNotification w (Some u) ticket type st)
  = inr (Some (newDocument w (notificationData u ticket type))).
Proof.
  intros Hc Hp Hm. run_dispatch.
  rewrite (create_accepts _ _ _ Hc), Hp, Hm. simpl.
  destruct (userSockets st !! User._id u); reflexivity.
Qed.
End DispatchOutcomes.

Lemma sendNotification_never_raises w user ticket type st :
  exists r, fst (NotificationService.sendNotification w user ticket type st) = inr r.
Proof.
  destruct user as [u|]; [|run_dispatch; eauto].
  destruct (create_total w (NotificationService.notificationData u ticket type) st)
    as [(e & E & _) | [E _]].
  - rewrite (sendNotification_persist_failure _ _ _ _ _ _ E). eauto.
  - run_dispatch. rewrite E. simpl.
    destruct (pushRaises w); simpl; [eauto|].
    destruct (userSockets st !! User._id u); simpl;
      destruct (mailDelivers w); simpl; eauto.
Qed.

(** C6 (amended).  Whatever the outcomes of the push and of the mail
    delivery, a call of [sendNotification] appends exactly one record to
    the stored notifications when the record can be created (target user
    found, type in the schema's enum, store accepting the insert) and
    leaves the stored notifications unchanged otherwise. *)
Theorem sendNotification_persists_once (w : World) (push mail : bool)
    (user : option User.t) (ticket : Ticket.t) (type : string) (st : State) :
  notifications
    (snd (NotificationService.sendNotification (withDelivery push mail w)
            user ticket type st))
  = match user with
    | Some u =>
        if existsb (String.eqb type) Notification.typeEnum && notificationStoreUp w
        then (notifications st
              ++ [Notification.mk (freshId w) (User._id u) (Some (Ticket._id ticket))
                    type (NotificationService.getNotificationMessage ticket type)
                    false None])%list
        else notifications st
    | None => notifications st
    end.
Proof.
  destruct user as [u|]; [|reflexivity].
  rewrite <- (validate_notificationData u ticket type).
  set (w' := withDelivery push mail w).
  change (notificationStoreUp w) with (notificationStoreUp w').
  change (freshId w) with (freshId w').
  destruct (create_total w' (NotificationService.notificationData u ticket type) st)
    as [(e & E & ->) | [E ->]].
  - rewrite (sendNotification_persist_failure _ _ _ _ _ _ E). reflexivity.
  - run_dispatch. rewrite E. simpl.
    destruct push; simpl; [reflexivity|].
    destruct (userSockets st !! User._id u); simpl;
      destruct mail; reflexivity.
Qed.

(** ** Ticket handlers *)

Section HandlerFacts.
Import Ticket TicketController.

Lemma validate_set_status v d : validate (set_status v d) = validate d.
Proof. reflexivity. Qed.

Lemma validate_push m d :
  validate (push_message m d) = validate d && validateMessage m.
Proof.
  unfold validate, push_message. simpl. rewrite forallb_app. simpl.
  rewrite andb_true_r, andb_assoc. reflexivity.
Qed.

(** *** updateTicketStatus with status 'Closed' *)

Lemma autoClose_closed now d : status d = Closed -> autoClose now d = d.
Proof.
  intros H. unfold autoClose. rewrite H. simpl.
  rewrite andb_false_r. reflexivity.
Qed.

(** Setting 'Closed' on a stored, valid ticket writes the ticket back
    with status Closed and with the [closedAt] it already had. *)
Lemma updateTicketStatus_close now id t reqUser st :
  tickets st !! id = Some t ->
  _id t = id ->
  validate t = true ->
  exists doc e,
    updateTicketStatus now id (Some "Closed") None reqUser st
    = (inr (Json 400 (ErrorBody "Error updating ticket" e)),
       set_tickets (<[id := doc]> (tickets st)) st)
    /\ status doc = Closed /\ closedAt doc = closedAt t.
Proof.
  intros Hfind Hid Hv. unfold updateTicketStatus. run_handler.
  rewrite Hfind.
  change (invalidStatus (Some "Closed")) with false.
  change (statusOr (Some "Closed") (status t)) with Closed. simpl.
  destruct (save_valid now (set_status Closed t) st Hv)
    as (doc & E & Hs & _ & Hc & _).
  rewrite E. simpl in *. rewrite Hid. exists doc. eexists. split; [reflexivity|].
  destruct (preSave_status_closedAt now (set_status Closed t)) as [Hs' Hc'].
  rewrite autoClose_closed in Hs', Hc' by reflexivity.
  rewrite Hs, Hc, Hs', Hc'. auto.
Qed.

(** *** addTicketMessage *)

(** What lines 544-552 do to the loaded document when it is Closed. *)
Lemma appendMessage_closed now content reqUser t :
  status t = Closed ->
  appendMessage now content reqUser t
  = mk (_id t) (order t) (user t) (subject t) (description t) InProgress
      (priority t)
      (messages t ++ [Message.mk (Some (User._id reqUser)) None content
                        false false now])
      (assignedStaff t) (closedAt t) (paymentDetails t) (metadata t)
      (createdAt t).
Proof. intros H. unfold appendMessage. simpl. rewrite H. reflexivity. Qed.

(** The pushed element has no [message], so the document fails the
    schema's [required] validator ... *)
Lemma appendMessage_invalid now content reqUser t :
  validate (appendMessage now content reqUser t) = false.
Proof.
  unfold appendMessage. destruct (status_eqb _ _);
    rewrite ?validate_set_status, validate_push; apply andb_false_r.
Qed.

(** ... and the hook itself raises on it, reading [msg.message]. *)
Lemma appendMessage_hook_raises now now' content reqUser t :
  exists e, snd (preSave now' (appendMessage now content reqUser t)) = Some e.
Proof.
  unfold preSave. rewrite autoClose_messages.
  destruct (urgentMessages_raises (messages (appendMessage now content reqUser t)))
    as (e & ->); [|eauto].
  apply Exists_exists.
  exists (Message.mk (Some (User._id reqUser)) None content false false now).
  split; [|reflexivity].
  unfold appendMessage. destruct (status_eqb _ _); simpl;
    apply list_elem_of_In, in_app_iff; right; left; reflexivity.
Qed.

(** So for a ticket that is found and may be messaged, the handler
    answers 400 and leaves the state as it was. *)
Lemma addTicketMessage_rejected w now id content reqUser t st :
  tickets st !! id = Some t ->
  String.eqb (user t) (User._id reqUser) || User.isAdmin reqUser = true ->
  addTicketMessage w now id content reqUser st
  = (inr (Json 400 (ErrorBody "Error adding message"
                      (ValidationError "Ticket validation failed"))), st).
Proof.
  intros Hfind Hauth. unfold addTicketMessage. run_handler. rewrite Hfind.
  rewrite <- negb_orb, Hauth. simpl.
  rewrite save_invalid by apply appendMessage_invalid. reflexivity.
Qed.

(** *** escalateTicket *)

(** What lines 758-776 do to a ticket that is due. *)
Lemma escalation_effect now seniorSupport t :
  escalation now seniorSupport t
  = mk (_id t) (order t) (user t) (subject t) (description t) InProgress High
      (messages t ++ [Message.mk None None
           (Some "Ticket automatically escalated due to prolonged open status")
           false true now])
      (match seniorSupport with
       | Some s => Some (User._id s)
       | None => assignedStaff t
       end)
      (closedAt t) (paymentDetails t) (metadata t) (createdAt t).
Proof. unfold escalation. destruct seniorSupport; reflexivity. Qed.

Lemma escalation_invalid now seniorSupport t :
  validate (escalation now seniorSupport t) = false.
Proof.
  unfold escalation. rewrite validate_push. apply andb_false_r.
Qed.

Lemma escalation_hook_raises now now' seniorSupport t :
  exists e, snd (preSave now' (escalation now seniorSupport t)) = Some e.
Proof.
  unfold preSave. rewrite autoClose_messages.
  destruct (urgentMessages_raises (messages (escalation now seniorSupport t)))
    as (e & ->); [|eauto].
  apply Exists_exists.
  exists (Message.mk None None
            (Some "Ticket automatically escalated due to prolonged open status")
            false true now).
  split; [|reflexivity].
  rewrite escalation_effect. simpl.
  apply list_elem_of_In, in_app_iff; right; left; reflexivity.
Qed.

(** A ticket that is due is never escalated in the store: the handler
    answers 400 and the state is as before. *)
Lemma escalateTicket_due_rejected now id t st :
  tickets st !! id = Some t ->
  dueForEscalation now t = true ->
  escalateTicket now id st
  = (inr (Json 400 (ErrorBody "Error escalating ticket"
                      (ValidationError "Ticket validation failed"))), st).
Proof.
  intros Hfind Hdue. unfold escalateTicket. run_handler. rewrite Hfind, Hdue.
  simpl. rewrite save_invalid by apply escalation_invalid. reflexivity.
Qed.

(** For every stored ticket the handler answers 400. *)
Lemma escalateTicket_always_400 now id t st :
  tickets st !! id = Some t ->
  exists e, fst (escalateTicket now id st)
            = inr (Json 400 (ErrorBody "Error escalating ticket" e)).
Proof.
  intros Hfind. destruct (dueForEscalation now t) eqn:Hdue.
  - rewrite (escalateTicket_due_rejected _ _ _ _ Hfind Hdue). eauto.
  - unfold escalateTicket. run_handler. rewrite Hfind, Hdue. simpl.
    destruct (save now t st) as [[e|doc] st']; simpl; eauto.
Qed.
End HandlerFacts.

Section CreateTicketFacts.
Import Ticket TicketController.

(** The rendering of a document is never a 24-digit hexadecimal id. *)
Lemma documentToString_not_id u id :
  isObjectIdHex id = true -> String.eqb (documentToString u) id = false.
Proof.
  intros Hid. apply String.eqb_neq. intros <-.
  unfold documentToString in Hid. discriminate Hid.
Qed.

(** For well-formed ids the ownership test of [createTicket] never
    passes: the handler answers 404 whether or not the order is the
    requester's, 400 when the order's user no longer exists, and in no
    case reaches [new Ticket]. *)
Lemma createTicket_stops_at_order_check w now (order : ObjectId) initialMessage
    reqUser st :
  isObjectIdHex order = true ->
  isObjectIdHex (User._id reqUser) = true ->
  createTicket w now order initialMessage reqUser st
  = match orders st !! order with
    | None => (inr (Json 404 (MessageBody "Order not found")), st)
    | Some o =>
        match List.find (fun u => String.eqb (User._id u) (Order.user o)) (users st) with
        | Some _ => (inr (Json 404 (MessageBody "Order not found")), st)
        | None => (inr (Json 400 (ErrorBody "Error creating ticket"
                                    (TypeError "existingOrder.user is null"))), st)
        end
    end.
Proof.
  intros _ Hid.
  unfold createTicket, Order_findById, tryCatch, mbind, M_bind, bind, mret,
    M_ret, ret, throw, gets.
  destruct (orders st !! order) as [o|]; [|reflexivity].
  cbn [populatedUser storedOrder].
  destruct (List.find _ (users st)) as [u|]; [|reflexivity].
  rewrite (documentToString_not_id u _ Hid). reflexivity.
Qed.

(** Whatever the requester's id, a run of [createTicket] ends in a 400 or
    404 reply and leaves the state as it was: should the ownership test
    pass, [save] rejects the document, which has neither [subject] nor
    [description] and whose one message has no [message]. *)
Lemma createTicket_no_ticket w now order initialMessage reqUser st :
  exists code body,
    createTicket w now order initialMessage reqUser st = (inr (Json code body), st)
    /\ (code = 400 \/ code = 404)
    /\ forall t, body <> TicketBody t.
Proof.
  unfold createTicket, Order_findById, tryCatch, mbind, M_bind, bind, mret,
    M_ret, ret, throw, gets.
  destruct (orders st !! order) as [o|];
    [|do 2 eexists; split; [reflexivity|]; split; [auto | discriminate]].
  cbn [populatedUser storedOrder].
  destruct (List.find _ (users st)) as [u|];
    [|do 2 eexists; split; [reflexivity|]; split; [auto | discriminate]].
  destruct (String.eqb (documentToString u) (User._id reqUser));
    do 2 eexists; (split; [reflexivity|]; split; [auto | discriminate]).
Qed.

Lemma newTicket_hook_raises w now now' o reqUser initialMessage :
  snd (preSave now' (newTicket w now o reqUser initialMessage))
  = Some (TypeError "msg.message is undefined").
Proof. reflexivity. Qed.
End CreateTicketFacts.

(** The literal of lines 433-445.  Whatever the order, the actor, the
    initial message, the clock and the generated id, the document that the
    [new Ticket] call of [createTicket] would build carries
    [paymentDetails] with [d17 = '21572385'] and
    [boustaRIB = '5359401743124212'], and the pre('save') hook does not
    touch them. *)
Theorem createTicket_paymentDetails (w : World) (now now' : Date)
    (existingOrder : Order.t) (reqUser : User.t) (initialMessage : option string) :
  Ticket.paymentDetails
    (TicketController.newTicket w now existingOrder reqUser initialMessage)
  = Some {| d17 := "21572385"; boustaRIB := "5359401743124212" |}
  /\ Ticket.paymentDetails
       (fst (Ticket.preSave now'
          (TicketController.newTicket w now existingOrder reqUser initialMessage)))
     = Some {| d17 := "21572385"; boustaRIB := "5359401743124212" |}.
Proof. split; [reflexivity | rewrite preSave_paymentDetails; reflexivity]. Qed.

(** ** Which steps keep "Closed has closedAt" *)

Section ClosedAtInvariant.
Import Ticket TicketController.

(** The hook keeps it: its auto-close block sets [closedAt] with the
    status. *)
Lemma preSave_keeps_closedAt now t :
  closedHasClosedAt t -> closedHasClosedAt (fst (preSave now t)).
Proof.
  unfold closedHasClosedAt. destruct (preSave_status_closedAt now t) as [-> ->].
  unfold autoClose. destruct (_ && _); simpl; eauto.
Qed.

Lemma newTicket_closedAt w now o reqUser initialMessage :
  closedHasClosedAt (newTicket w now o reqUser initialMessage).
Proof. unfold closedHasClosedAt. discriminate. Qed.

Lemma appendMessage_closedAt now content reqUser t :
  closedHasClosedAt (appendMessage now content reqUser t).
Proof.
  unfold closedHasClosedAt, appendMessage. simpl.
  destruct (status t) eqn:E; simpl; rewrite ?E; discriminate.
Qed.

Lemma escalation_closedAt now seniorSupport t :
  closedHasClosedAt (escalation now seniorSupport t).
Proof. rewrite escalation_effect. unfold closedHasClosedAt. discriminate. Qed.

(** The assignment [ticket.status = 'Closed'] of updateTicketStatus is the
    step that does not. *)
Lemma set_status_Closed_breaks_closedAt t :
  closedAt t = None -> ~ closedHasClosedAt (set_status Closed t).
Proof.
  intros Hc H. destruct (H eq_refl) as [d Hd]. simpl in Hd. congruence.
Qed.
End ClosedAtInvariant.

(** ** Concrete runs of the handlers *)

(** C1 (code defect).  An admin sets 'Closed' on the stored Open ticket
    "t-open": the ticket is written back Closed, with [closedAt] still
    unset. *)
Theorem admin_close_leaves_closedAt_unset :
  Ticket.status Desk.openTicket = Open
  /\ exists doc,
       tickets (snd (TicketController.updateTicketStatus 5000 "t-open"
                       (Some "Closed") None Desk.root Desk.state)) !! "t-open"
       = Some doc
       /\ Ticket.status doc = Closed
       /\ Ticket.closedAt doc = None.
Proof.
  split; [reflexivity|].
  destruct (updateTicketStatus_close 5000 "t-open" Desk.openTicket Desk.root
              Desk.state eq_refl eq_refl eq_refl) as (doc & e & E & Hs & Hc).
  exists doc. rewrite E. simpl. rewrite lookup_insert_eq. auto.
Qed.

(** C4 (code defect).  The owner replies on the stored Closed ticket
    "t-closed": the handler answers 400 and the stored ticket is still
    Closed, because the pushed message has no [message]. *)
Theorem reply_on_closed_ticket_is_rejected :
  tickets Desk.state !! "t-closed" = Some Desk.closedTicket
  /\ Ticket.status Desk.closedTicket = Closed
  /\ TicketController.addTicketMessage (Desk.world true false true) 5000
       "t-closed" (Some "It broke again") Desk.alice Desk.state
     = (inr (Json 400 (ErrorBody "Error adding message"
                         (ValidationError "Ticket validation failed"))),
        Desk.state).
Proof.
  assert (H : tickets Desk.state !! "t-closed" = Some Desk.closedTicket)
    by (vm_compute; reflexivity).
  split; [exact H|]. split; [reflexivity|].
  apply (addTicketMessage_rejected _ _ _ _ _ _ _ H). reflexivity.
Qed.

(** C5 (code defect).  "t-open" is Open and older than 24 hours at
    [Desk.dayLater]: the handler answers 400 and the state is unchanged.
    One second after its creation it is not due, and the handler answers
    400 as well. *)
Theorem escalation_is_rejected :
  TicketController.dueForEscalation Desk.dayLater Desk.openTicket = true
  /\ TicketController.escalateTicket Desk.dayLater "t-open" Desk.state
     = (inr (Json 400 (ErrorBody "Error escalating ticket"
                         (ValidationError "Ticket validation failed"))),
        Desk.state)
  /\ TicketController.dueForEscalation 2000 Desk.openTicket = false
  /\ fst (TicketController.escalateTicket 2000 "t-open" Desk.state)
     = inr (Json 400 (ErrorBody "Error escalating ticket"
              (TypeError "NotificationService.notifyTicketEscalation is not a function"))).
Proof.
  assert (H : tickets Desk.state !! "t-open" = Some Desk.openTicket)
    by (vm_compute; reflexivity).
  split; [reflexivity|]. split.
  - apply (escalateTicket_due_rejected _ _ _ _ H). reflexivity.
  - split; [reflexivity | vm_compute; reflexivity].
Qed.


(** C9 (code defect).  No run of [createTicket] stores or returns a
    ticket: every run ends in a 400 or 404 reply with the state as it was.
    So carol, asking for a ticket on her own stored order, gets 'Order not
    found': the query returns the order with [user] populated, and the
    ownership test compares the rendering of that document with her id.
    The literal with the two [paymentDetails] constants is never
    reached. *)
Theorem createTicket_creates_no_ticket :
  (forall w now order initialMessage reqUser st,
     exists code body,
       TicketController.createTicket w now order initialMessage reqUser st
       = (inr (Json code body), st)
       /\ (code = 400 \/ code = 404)
       /\ forall t, body <> TicketBody t)
  /\ orders Desk2.shop !! Order._id Desk2.carolOrder = Some Desk2.carolOrder
  /\ Order.user Desk2.carolOrder = User._id Desk2.carol
  /\ In Desk2.carol (users Desk2.shop)
  /\ isObjectIdHex (Order._id Desk2.carolOrder) = true
  /\ isObjectIdHex (User._id Desk2.carol) = true
  /\ TicketController.createTicket (Desk.world true false true) 5000
       (Order._id Desk2.carolOrder) (Some "Need help") Desk2.carol Desk2.shop
     = (inr (Json 404 (MessageBody "Order not found")), Desk2.shop).
Proof.
  split; [intros; apply createTicket_no_ticket|].
  split; [vm_compute; reflexivity|]. split; [reflexivity|].
  split; [left; reflexivity|].
  split; [reflexivity|]. split; [reflexivity|].
  vm_compute. reflexivity.
Qed.

(** ** Dispatch: failures *)

(** C6, as stated, fails: with the store rejecting the insert the call
    persists no record. *)
Lemma sendNotification_can_persist_nothing :
  notifications
    (snd (NotificationService.sendNotification (Desk.world false false true)
            (Some Desk.alice) Desk.openTicket "TICKET_UPDATED" Desk.state))
  = notifications Desk.state.
Proof. vm_compute. reflexivity. Qed.

(** C7, as stated, fails: the insert is rejected, and [sendNotification]
    returns normally (with [undefined]) to its caller. *)
Lemma persist_failure_not_raised_to_caller :
  fst (NotificationModel.create (Desk.world false false true)
         (NotificationService.notificationData Desk.alice Desk.openTicket
            "TICKET_UPDATED") Desk.state)
  = inl (StoreError "insert rejected")
  /\ fst (NotificationService.sendNotification (Desk.world false false true)
            (Some Desk.alice) Desk.openTicket "TICKET_UPDATED" Desk.state)
     = inr None.
Proof. split; vm_compute; reflexivity. Qed.

(** C7 (amended).  A failure to persist the record is logged and raised by
    [createInAppNotification] to [sendNotification], which logs it and
    returns [undefined]: the caller of [sendNotification] sees no error.
    A failure of the mail delivery is caught and logged inside
    [sendEmailNotification] and [sendNotification] still returns the
    notification.  [sendNotification] never raises. *)
Theorem dispatch_failure_handling (w : World) (u : User.t) (ticket : Ticket.t)
    (type : string) (st : State) :
  (forall e,
      fst (NotificationModel.create w
             (NotificationService.notificationData u ticket type) st) = inl e ->
      NotificationService.createInAppNotification w
        (NotificationService.notificationData u ticket type) st
      = (inl (WrappedError "Failed to create notification: " e),
         set_console (console st ++ ["Error creating in-app notification:"]) st)
      /\ NotificationService.sendNotification w (Some u) ticket type st
         = (inr None,
            set_console (console st ++ ["Error creating in-app notification:";
                                        "Error sending notification:"]) st))
  /\ (mailDelivers w = false ->
      (forall st0,
          NotificationService.sendEmailNotification w u ticket type st0
          = (inr tt,
             set_console (console st0 ++ ["Error sending email notification:"]) st0))
      /\ (Notification.validate (NotificationService.notificationData u ticket type)
            && notificationStoreUp w = true ->
          pushRaises w = false ->
          fst (NotificationService.sendNotification w (Some u) ticket type st)
          = inr (Some (NotificationModel.newDocument w
                         (NotificationService.notificationData u ticket type)))))
  /\ (forall user, exists r,
        fst (NotificationService.sendNotification w user ticket type st) = inr r).
Proof.
  split; [|split].
  - intros e He. apply create_rejects in He as [_ He].
    split; [apply createInApp_persist_failure | eapply sendNotification_persist_failure];
      exact He.
  - intros Hm. split.
    + intros st0. apply sendEmail_failure_swallowed, Hm.
    + intros Hc Hp. apply sendNotification_mail_failure; assumption.
  - intros user. apply sendNotification_never_raises.
Qed.

(** ** The theorems at work on the help desk *)

(** C2 on "t-staff", where only staff wrote. *)
Lemma save_auto_closes_witness :
  (Ticket.status (fst (Ticket.preSave 3000 Desk.staffOnlyTicket)) = Closed
   /\ Ticket.closedAt (fst (Ticket.preSave 3000 Desk.staffOnlyTicket)) = Some 3000)
  /\ exists doc,
       TicketController.save 3000 Desk.staffOnlyTicket Desk.state
       = (inr doc, set_tickets (<["t-staff" := doc]> (tickets Desk.state)) Desk.state)
       /\ Ticket.status doc = Closed /\ Ticket.closedAt doc = Some 3000.
Proof.
  destruct (save_auto_closes 3000 Desk.staffOnlyTicket) as (H1 & _ & H3).
  - discriminate.
  - reflexivity.
  - discriminate.
  - split; [exact H1|]. apply (H3 eq_refl Desk.state).
Defined.

(** [save_escalates_urgent] on "t-urgent", whose message reads "URGENT need
    refund". *)
Lemma save_escalates_urgent_witness :
  Ticket.priority Desk.urgentTicket = Low
  /\ Ticket.priority (fst (Ticket.preSave 3000 Desk.urgentTicket)) = Urgent.
Proof.
  split; [reflexivity|].
  destruct (save_escalates_urgent 3000 Desk.urgentTicket) as (_ & H & _).
  destruct H as (_ & H & _).
  - repeat constructor. exists "URGENT need refund". reflexivity.
  - apply H. left. exists "URGENT need refund". split; [reflexivity|].
    left. exists "", "URGENT", " need refund". split; reflexivity.
Defined.

(** C8 for alice, who holds no socket. *)
Lemma broadcast_unregistered_noop_witness :
  userSockets Desk.state !! "u-alice" = None
  /\ WebSocketService.broadcastNotification "u-alice" Desk.welcome Desk.state
     = (inr tt, Desk.state).
Proof.
  assert (H : userSockets Desk.state !! "u-alice" = None) by (vm_compute; reflexivity).
  split; [exact H|]. apply broadcast_unregistered_noop, H.
Defined.

(** C10: root asks for alice's notification "n-0". *)
Lemma markNotificationAsRead_owner_only_witness :
  snd (NotificationController.markNotificationAsRead (Desk.world true false true)
         "n-0" Desk.root Desk.state) = Desk.state
  /\ fst (NotificationController.markNotificationAsRead (Desk.world true false true)
            "n-0" Desk.root Desk.state)
     = inr (NextError "No notification found with that ID" 404).
Proof.
  destruct (markNotificationAsRead_owner_only (Desk.world true false true)
              "n-0" Desk.root Desk.state) as [_ H].
  destruct H as (H1 & H2 & _).
  - intros n Hn _. apply list_elem_of_In in Hn. destruct Hn as [<- | []].
    discriminate.
  - split; [exact H1 | exact (H2 eq_refl)].
Defined.

(** The owner's own request does find the notification. *)
Example owner_marks_own_notification :
  fst (NotificationController.markNotificationAsRead (Desk.world true false true)
         "n-0" Desk.alice Desk.state)
  = inr (Json 200 (NotificationBody "success"
                     (Notification.set_read (Some true) Desk.welcome))).
Proof. vm_compute. reflexivity. Qed.

(** C7 (amended) with the store down, and with the mail transport down. *)
Lemma dispatch_failure_handling_witness :
  NotificationService.sendNotification (Desk.world false false true)
    (Some Desk.alice) Desk.openTicket "TICKET_UPDATED" Desk.state
  = (inr None,
     set_console ["Error creating in-app notification:";
                  "Error sending notification:"] Desk.state)
  /\ fst (NotificationService.sendNotification (Desk.world true false false)
            (Some Desk.alice) Desk.openTicket "TICKET_UPDATED" Desk.state)
     = inr (Some (Notification.mk "n-1" "u-alice" (Some "t-open") "TICKET_UPDATED"
                    "Your ticket #t-open has been updated." false None)).
Proof.
  split.
  - destruct (dispatch_failure_handling (Desk.world false false true) Desk.alice
                Desk.openTicket "TICKET_UPDATED" Desk.state) as (H & _).
    exact (proj2 (H (StoreError "insert rejected") eq_refl)).
  - destruct (dispatch_failure_handling (Desk.world true false false) Desk.alice
                Desk.openTicket "TICKET_UPDATED" Desk.state) as (_ & H & _).
    exact (proj2 (H eq_refl) eq_refl eq_refl).
Defined.

(** One record per successful dispatch, here with the push raising and
    the mail transport failing. *)
Example dispatch_with_failing_channels_run :
  notifications
    (snd (NotificationService.sendNotification (Desk.world true true false)
            (Some Desk.alice) Desk.openTicket "TICKET_UPDATED" Desk.state))
  = [Desk.welcome;
     Notification.mk "n-1" "u-alice" (Some "t-open") "TICKET_UPDATED"
       "Your ticket #t-open has been updated." false None].
Proof. vm_compute. reflexivity. Qed.

(** * Further properties of the modelled code *)

(** ** The pre('save') hook, run again *)

Section HookAgain.
Import Ticket.

Lemma autoClose_status now d :
  status (autoClose now d)
  = if (0 <? Z.of_nat (length (messages d))) && forallb Message.isAdmin (messages d)
    then Closed else status d.
Proof.
  unfold autoClose.
  destruct ((0 <? Z.of_nat (length (messages d))) && forallb Message.isAdmin (messages d));
    simpl; [|reflexivity].
  destruct (status d) eqn:Hs; simpl; auto.
Qed.

Lemma autoClose_again now now' d : autoClose now' (autoClose now d) = autoClose now d.
Proof.
  unfold autoClose at 1. rewrite autoClose_messages, autoClose_status.
  destruct ((0 <? Z.of_nat (length (messages d))) && forallb Message.isAdmin (messages d)) eqn:E;
    simpl; [reflexivity|].
  unfold autoClose. rewrite E. reflexivity.
Qed.

Lemma preSave_createdAt now d : createdAt (fst (preSave now d)) = createdAt d.
Proof.
  unfold preSave, autoClose.
  destruct (urgentMessages _); simpl; [|destruct (_ && negb (priority_eqb _ _)); simpl];
    destruct (_ && _); reflexivity.
Qed.

Lemma autoClose_set_priority now p d :
  autoClose now (set_priority p d) = set_priority p (autoClose now d).
Proof. unfold autoClose. simpl. destruct (_ && _); reflexivity. Qed.
End HookAgain.

(** X1.  Saving again changes nothing: on a ticket whose messages all carry a
    text, running the hook on its own output, at any later time, completes
    and returns that output, so a [closedAt] written by the auto-close is
    not overwritten by later saves. *)
Theorem preSave_idempotent (now now' : Date) (t : Ticket.t) :
  Forall hasText (Ticket.messages t) ->
  Ticket.preSave now' (fst (Ticket.preSave now t)) = (fst (Ticket.preSave now t), None).
Proof.
  intros Htext. unfold Ticket.preSave at 2 3.
  pose proof (autoClose_messages now t) as Hm.
  destruct (urgentMessages_hasText _ Htext) as (keep & Hk & _).
  rewrite Hm, Hk. simpl.
  destruct ((0 <? Z.of_nat (length keep))
            && negb (priority_eqb (Ticket.priority (Ticket.autoClose now t)) Urgent)) eqn:E.
  - unfold Ticket.preSave. rewrite autoClose_set_priority, autoClose_again.
    simpl. rewrite Hm, Hk. simpl. rewrite andb_false_r. reflexivity.
  - unfold Ticket.preSave. rewrite autoClose_again, Hm, Hk, E. reflexivity.
Qed.

(** [preSave_idempotent] on "t-staff": closed at 3000, saved again at 9000. *)
Lemma preSave_idempotent_witness :
  Ticket.closedAt (fst (Ticket.preSave 9000 (fst (Ticket.preSave 3000 Desk.staffOnlyTicket))))
  = Some 3000.
Proof.
  rewrite (preSave_idempotent 3000 9000 Desk.staffOnlyTicket).
  - reflexivity.
  - repeat constructor. exists "Refund issued". reflexivity.
Defined.

(** X2.  What the hook can touch: [status] (only towards Closed, and exactly
    when the message list is non-empty and all staff), [closedAt] and
    [metadata] (only together with that transition), and [priority] (only
    towards Urgent).  Messages, owner, order, assignee, subject,
    description, payment details, id and creation time are never changed,
    whether the hook completes or raises. *)
Theorem preSave_frame (now : Date) (t : Ticket.t) :
  let t' := fst (Ticket.preSave now t) in
  (Ticket._id t' = Ticket._id t /\ Ticket.order t' = Ticket.order t
   /\ Ticket.user t' = Ticket.user t /\ Ticket.subject t' = Ticket.subject t
   /\ Ticket.description t' = Ticket.description t
   /\ Ticket.messages t' = Ticket.messages t
   /\ Ticket.assignedStaff t' = Ticket.assignedStaff t
   /\ Ticket.paymentDetails t' = Ticket.paymentDetails t
   /\ Ticket.createdAt t' = Ticket.createdAt t)
  /\ Ticket.status t'
     = (if match Ticket.messages t with [] => false | _ :: _ => true end
           && forallb Message.isAdmin (Ticket.messages t)
        then Closed else Ticket.status t)
  /\ (Ticket.closedAt t' = Ticket.closedAt t /\ Ticket.metadata t' = Ticket.metadata t
      \/ Ticket.status t <> Closed /\ Ticket.status t' = Closed
         /\ Ticket.closedAt t' = Some now)
  /\ (Ticket.priority t' = Ticket.priority t \/ Ticket.priority t' = Urgent).
Proof.
  assert (Hshape : exists p, fst (Ticket.preSave now t)
                             = Ticket.set_priority p (Ticket.autoClose now t)
                             /\ (p = Ticket.priority t \/ p = Urgent)).
  { unfold Ticket.preSave. destruct (Ticket.urgentMessages _); simpl.
    - exists (Ticket.priority t). split; [|auto].
      rewrite <- (autoClose_priority now t). destruct (Ticket.autoClose now t); reflexivity.
    - destruct (_ && _); [exists Urgent; auto|].
      exists (Ticket.priority t). split; [|auto].
      rewrite <- (autoClose_priority now t). destruct (Ticket.autoClose now t); reflexivity. }
  destruct Hshape as (p & Heq & Hp). simpl. rewrite Heq. clear Heq.
  split; [|split; [|split]].
  - unfold Ticket.autoClose. destruct (_ && _); simpl; repeat split.
  - simpl. rewrite autoClose_status. destruct (Ticket.messages t); reflexivity.
  - unfold Ticket.autoClose.
    destruct (Ticket.messages t) as [|m ms]; simpl; [auto|].
    destruct (Message.isAdmin m && forallb Message.isAdmin ms); simpl; [|auto].
    destruct (Ticket.status t) eqn:Hs; simpl; auto; right; repeat split; congruence.
  - simpl. exact Hp.
Qed.

(** X3.  A ticket for which "Closed implies [closedAt] is set" holds before
    the hook still satisfies it after the hook: the auto-close block
    writes [closedAt] together with the status, and nothing else in the
    hook touches either. *)
Theorem hook_keeps_closed_invariant (now : Date) (t : Ticket.t) :
  closedHasClosedAt t -> closedHasClosedAt (fst (Ticket.preSave now t)).
Proof. apply preSave_keeps_closedAt. Qed.

(** On "t-closed", closed at 2000. *)
Lemma hook_keeps_closed_invariant_witness :
  closedHasClosedAt (fst (Ticket.preSave 5000 Desk.closedTicket)).
Proof.
  apply hook_keeps_closed_invariant. intros _. exists 2000. reflexivity.
Defined.

(** ** updateTicketStatus *)

Section UpdateStatusFacts.
Import Ticket TicketController.

Lemma truthy_Some s : s <> "" -> truthy (Some s) = Some s.
Proof.
  intros H. unfold truthy. destruct (String.eqb_spec s ""); [contradiction | reflexivity].
Qed.


Lemma found_run_updateTicketStatus now id status assignedStaff reqUser t st :
  tickets st !! id = Some t ->
  invalidStatus status = false ->
  truthy assignedStaff = None ->
  updateTicketStatus now id status assignedStaff reqUser st
  = match save now (set_status (statusOr status (Ticket.status t)) t) st with
    | (inl e, st') => (inr (Json 400 (ErrorBody "Error updating ticket" e)), st')
    | (inr doc, st') =>
        (inr (Json 400 (ErrorBody "Error updating ticket"
           (TypeError "NotificationService.notifyTicketStatusUpdate is not a function"))),
         st')
    end.
Proof.
  intros Hfind Hinv Hstaff. unfold updateTicketStatus. run_handler.
  rewrite Hfind, Hinv, Hstaff. simpl.
  destruct (save now _ st) as [[e|doc] st']; reflexivity.
Qed.
End UpdateStatusFacts.

(** X4.  A ticket on which only staff wrote cannot be given another status: for
    a stored, valid ticket with a non-empty, all-staff message list,
    updateTicketStatus with any of the four statuses stores it Closed (the
    hook overrides the requested value), with [closedAt] set to the time
    of the request when the ticket was not Closed before. *)
Theorem updateTicketStatus_staff_only_closes (now : Date) (id : ObjectId)
    (t : Ticket.t) (s : string) (v : Status) (reqUser : User.t) (st : State) :
  tickets st !! id = Some t ->
  Ticket._id t = id ->
  Ticket.validate t = true ->
  Ticket.messages t <> [] ->
  forallb Message.isAdmin (Ticket.messages t) = true ->
  status_of_string s = Some v ->
  exists doc,
    tickets (snd (TicketController.updateTicketStatus now id (Some s) None reqUser st)) !! id
    = Some doc
    /\ Ticket.status doc = Closed
    /\ (v <> Closed -> Ticket.closedAt doc = Some now).
Proof.
  intros Hfind Hid Hv Hne Hall Hs.
  assert (Hs' : s <> "") by (intros ->; discriminate).
  assert (Hor : TicketController.statusOr (Some s) (Ticket.status t) = v).
  { unfold TicketController.statusOr. rewrite truthy_Some, Hs by assumption. reflexivity. }
  rewrite (found_run_updateTicketStatus _ _ _ _ _ _ _ Hfind); [| |reflexivity].
  2:{ unfold TicketController.invalidStatus. rewrite truthy_Some, Hs by assumption. reflexivity. }
  rewrite Hor.
  destruct (save_valid now (Ticket.set_status v t) st Hv) as (doc & E & Hds & _ & Hdc & _).
  rewrite E. simpl in *. rewrite Hid, lookup_insert_eq. exists doc. split; [reflexivity|].
  destruct (preSave_status_closedAt now (Ticket.set_status v t)) as [Hs1 Hc1].
  rewrite Hds, Hdc, Hs1, Hc1. split.
  - rewrite autoClose_status. simpl. rewrite Hall.
    destruct (Ticket.messages t); [congruence | reflexivity].
  - intros Hnc. rewrite autoClose_fires; simpl; auto.
Qed.

(** On "t-staff" an admin asks for 'In Progress'. *)
Lemma updateTicketStatus_staff_only_closes_witness :
  exists doc,
    tickets (snd (TicketController.updateTicketStatus 7000 "t-staff"
                    (Some "In Progress") None Desk.root Desk2.withStaffTicket))
      !! "t-staff" = Some doc
    /\ Ticket.status doc = Closed
    /\ Ticket.closedAt doc = Some 7000.
Proof.
  destruct (updateTicketStatus_staff_only_closes 7000 "t-staff" Desk.staffOnlyTicket
              "In Progress" InProgress Desk.root Desk2.withStaffTicket)
    as (doc & E & Hs & Hc).
  - simpl. apply lookup_insert_eq.
  - reflexivity.
  - reflexivity.
  - discriminate.
  - reflexivity.
  - reflexivity.
  - exists doc. split; [exact E|]. split; [exact Hs|]. apply Hc. discriminate.
Defined.



(** ** The four handlers never report success *)

(** X6.  createTicket and addTicketMessage never change the state and never
    answer with a ticket: every run ends in a 400, 403 or 404 reply.
    createTicket stops at its ownership test, which compares the rendering
    of the populated user document with the requester's id (and [save]
    would reject its document anyway); addTicketMessage hands [save] a
    document with a message that has no [message]. *)
Theorem create_and_reply_never_write (w : World) (now : Date) (st : State) :
  (forall order initialMessage reqUser,
      exists code body,
        TicketController.createTicket w now order initialMessage reqUser st
        = (inr (Json code body), st)
        /\ (code = 400 \/ code = 404)
        /\ forall t, body <> TicketBody t)
  /\ (forall id content reqUser,
      exists code body,
        TicketController.addTicketMessage w now id content reqUser st
        = (inr (Json code body), st)
        /\ (code = 400 \/ code = 403 \/ code = 404)
        /\ forall t, body <> TicketBody t).
Proof.
  split.
  - intros order initialMessage reqUser. apply createTicket_no_ticket.
  - intros id content reqUser.
    destruct (tickets st !! id) as [t|] eqn:Ht.
    + destruct (String.eqb (Ticket.user t) (User._id reqUser) || User.isAdmin reqUser) eqn:Hauth.
      * rewrite (addTicketMessage_rejected _ _ _ _ _ _ _ Ht Hauth).
        do 2 eexists. split; [reflexivity|]. split; [auto | discriminate].
      * unfold TicketController.addTicketMessage. run_handler. rewrite Ht.
        rewrite <- negb_orb, Hauth. simpl.
        do 2 eexists. split; [reflexivity|]. split; [auto | discriminate].
    + unfold TicketController.addTicketMessage. run_handler. rewrite Ht.
      do 2 eexists. split; [reflexivity|]. split; [auto | discriminate].
Qed.

(** X7.  updateTicketStatus and escalateTicket never answer with a ticket
    either: every run ends in a 400 or 404 reply, also when the ticket was
    written, because the NotificationService method they call after
    [save] does not exist. *)
Theorem update_and_escalate_never_answer_ticket (now : Date) (st : State) :
  (forall id status assignedStaff reqUser,
      exists code body,
        fst (TicketController.updateTicketStatus now id status assignedStaff reqUser st)
        = inr (Json code body)
        /\ (code = 400 \/ code = 404)
        /\ forall t, body <> TicketBody t)
  /\ (forall id,
      exists code body,
        fst (TicketController.escalateTicket now id st) = inr (Json code body)
        /\ (code = 400 \/ code = 404)
        /\ forall t, body <> TicketBody t).
Proof.
  split.
  - intros id status assignedStaff reqUser.
    unfold TicketController.updateTicketStatus. run_handler.
    destruct (tickets st !! id) as [t|]; simpl;
      [|do 2 eexists; split; [reflexivity|]; split; [auto | discriminate]].
    destruct (TicketController.invalidStatus status); simpl;
      [do 2 eexists; split; [reflexivity|]; split; [auto | discriminate]|].
    destruct (TicketController.truthy assignedStaff) as [staffId|]; simpl.
    + destruct (User.isAdmin reqUser); simpl.
      * destruct (List.find _ (users st)); simpl.
        -- destruct (TicketController.save now _ st) as [[e|doc] st']; simpl;
             do 2 eexists; (split; [reflexivity|]; split; [auto | discriminate]).
        -- do 2 eexists; split; [reflexivity|]; split; [auto | discriminate].
      * destruct (TicketController.save now _ st) as [[e|doc] st']; simpl;
          do 2 eexists; (split; [reflexivity|]; split; [auto | discriminate]).
    + destruct (TicketController.save now _ st) as [[e|doc] st']; simpl;
        do 2 eexists; (split; [reflexivity|]; split; [auto | discriminate]).
  - intros id. destruct (tickets st !! id) as [t|] eqn:Ht.
    + destruct (escalateTicket_always_400 now id t st Ht) as (e & ->).
      do 2 eexists. split; [reflexivity|]. split; [auto | discriminate].
    + unfold TicketController.escalateTicket. run_handler. rewrite Ht.
      do 2 eexists. split; [reflexivity|]. split; [auto | discriminate].
Qed.

(** ** Reading a ticket through the route *)

(** X8.  GET /:id never changes the state.  It answers with a ticket only with
    the stored one, and only to its owner or to a user who has both the
    role 'admin' (asked by the middleware) and the [isAdmin] flag (asked by
    the handler).  A user who is admin by the flag alone and does not own
    the ticket is stopped by the middleware with a 403. *)
Theorem getTicketRoute_access (id : ObjectId) (reqUser : User.t) (st : State) :
  snd (TicketAccess.getTicketRoute id reqUser st) = st
  /\ (forall code t,
        fst (TicketAccess.getTicketRoute id reqUser st) = inr (Json code (TicketBody t)) ->
        code = 200 /\ tickets st !! id = Some t
        /\ (Ticket.user t = User._id reqUser
            \/ User.role reqUser = Some "admin" /\ User.isAdmin reqUser = true))
  /\ (forall t o,
        tickets st !! id = Some t ->
        List.find (fun u => String.eqb (User._id u) (Ticket.user t)) (users st) = Some o ->
        (Ticket.user t = User._id reqUser ->
         fst (TicketAccess.getTicketRoute id reqUser st) = inr (Json 200 (TicketBody t)))
        /\ (Ticket.user t <> User._id reqUser ->
            User.role reqUser <> Some "admin" ->
            fst (TicketAccess.getTicketRoute id reqUser st)
            = inr (Json 403 (MessageBody "Unauthorized access to ticket")))).
Proof.
  unfold TicketAccess.getTicketRoute, TicketAccess.checkTicketAccess,
    TicketAccess.getTicketById. run_handler.
  destruct (tickets st !! id) as [t|] eqn:Ht; simpl.
  2:{ split; [reflexivity|]. split; [intros ? ? [=] | intros ? ? [=]]. }
  destruct (List.find _ (users st)) as [o|] eqn:Ho; simpl.
  - assert (Hid : User._id o = Ticket.user t).
    { apply List.find_some in Ho as [_ Ho]. apply String.eqb_eq, Ho. }
    rewrite Hid.
    assert (Hrole : match User.role reqUser with
                    | Some r => String.eqb r "admin" | None => false end = true
                    <-> User.role reqUser = Some "admin").
    { destruct (User.role reqUser) as [r|]; [|split; discriminate].
      rewrite String.eqb_eq. split; congruence. }
    destruct (match User.role reqUser with
              | Some r => String.eqb r "admin" | None => false end) eqn:Er;
      simpl; rewrite ?Ht; simpl; rewrite ?Ho; simpl; rewrite ?Hid;
      destruct (String.eqb_spec (Ticket.user t) (User._id reqUser)) as [Hu|Hu];
      simpl; rewrite ?Ht; simpl; rewrite ?Ho; simpl; rewrite ?Hid;
      try (destruct (String.eqb_spec (Ticket.user t) (User._id reqUser)); [|contradiction]);
      try (destruct (User.isAdmin reqUser) eqn:Ha); simpl;
      (split; [reflexivity|]); (split;
        [ intros code t' E;
          first [ discriminate E
                | injection E as <- <-;
                  split; [reflexivity|]; split; [reflexivity|];
                  first [ left; assumption
                        | right; split; [apply Hrole; reflexivity | reflexivity] ] ]
        | intros t' o' E _; injection E as <-; split;
          [ intros Hown; first [reflexivity | contradiction]
          | intros Hown Hr; first [reflexivity | contradiction
                                  | exfalso; apply Hr, Hrole; reflexivity ] ] ]).
  - destruct (match User.role reqUser with
              | Some r => String.eqb r "admin" | None => false end); simpl;
      rewrite ?Ht; simpl; rewrite ?Ho; simpl;
      (split; [reflexivity|]);
      (split; [intros ? ? [=]
              | intros t' o' E E'; injection E as <-; rewrite Ho in E'; discriminate E']).
Qed.

(** root has the [isAdmin] flag but no role: alice's ticket is refused;
    alice reads it. *)
Lemma getTicketRoute_access_witness :
  fst (TicketAccess.getTicketRoute "t-open" Desk.root Desk.state)
  = inr (Json 403 (MessageBody "Unauthorized access to ticket"))
  /\ fst (TicketAccess.getTicketRoute "t-open" Desk.alice Desk.state)
     = inr (Json 200 (TicketBody Desk.openTicket)).
Proof.
  assert (Hfind : tickets Desk.state !! "t-open" = Some Desk.openTicket)
    by (vm_compute; reflexivity).
  split.
  - destruct (getTicketRoute_access "t-open" Desk.root Desk.state) as (_ & _ & H).
    apply (H Desk.openTicket Desk.alice Hfind eq_refl); discriminate.
  - destruct (getTicketRoute_access "t-open" Desk.alice Desk.state) as (_ & _ & H).
    apply (H Desk.openTicket Desk.alice Hfind eq_refl). reflexivity.
Defined.

(** ** Escalation threshold and the [age] virtual *)

(** X9.  A ticket is due for escalation only when it is Open and in at least
    its second day ([age >= 1]); an Open ticket with [age >= 1] is due
    except at exactly 24 hours, where the strict comparison of
    escalateTicket says no.  Without [createdAt] it is never due. *)
Theorem due_versus_age (now : Date) (t : Ticket.t) :
  (TicketController.dueForEscalation now t = true ->
   Ticket.status t = Open
   /\ exists a, TicketVirtual.age now t = Some a /\ 1 <= a)
  /\ (Ticket.status t = Open ->
      forall a, TicketVirtual.age now t = Some a -> 1 <= a ->
      TicketController.dueForEscalation now t = true
      \/ TicketVirtual.ticketAge now t = Some TicketController.twentyFourHours)
  /\ (Ticket.createdAt t = None -> TicketController.dueForEscalation now t = false).
Proof.
  unfold TicketController.dueForEscalation, TicketVirtual.age, TicketVirtual.ticketAge,
    TicketController.twentyFourHours, TicketVirtual.oneDay.
  destruct (Ticket.createdAt t) as [c|]; [|repeat split; try discriminate; intros ? ? [=]].
  split; [|split; [|discriminate]].
  - intros H. apply andb_true_iff in H as [Hage Hst]. apply Z.ltb_lt in Hage.
    split; [destruct (Ticket.status t); try discriminate; reflexivity|].
    eexists. split; [reflexivity|].
    apply Z.div_le_lower_bound; lia.
  - intros Hst a [= <-] Ha. rewrite Hst. simpl. rewrite andb_true_r.
    destruct (Z.ltb_spec (24 * 60 * 60 * 1000) (now - c)) as [Hlt|Hle]; [left; reflexivity|].
    right. f_equal.
    destruct (Z.eq_dec (now - c) (24 * 60 * 60 * 1000)) as [E|E]; [exact E|].
    exfalso. assert (Hlt : now - c < 1000 * 60 * 60 * 24 * 1) by lia.
    apply Z.div_lt_upper_bound in Hlt; lia.
Qed.

(** "t-open" 25 hours after its creation. *)
Lemma due_versus_age_witness :
  TicketVirtual.age Desk.dayLater Desk.openTicket = Some 1
  /\ Ticket.status Desk.openTicket = Open.
Proof.
  destruct (due_versus_age Desk.dayLater Desk.openTicket) as (H & _).
  destruct (H eq_refl) as (Hs & a & Ha & _).
  split; [reflexivity | exact Hs].
Defined.

(** ** The connection registry *)

Lemma broadcast_unregistered_noop_aux (st : State) (actorId : ObjectId)
    (n : Notification.t) :
  userSockets st !! actorId = None ->
  WebSocketService.broadcastNotification actorId n st = (inr tt, st).
Proof.
  intros Hnone. unfold WebSocketService.broadcastNotification.
  unfold mbind, M_bind, bind, gets. rewrite Hnone. reflexivity.
Qed.

(** X10.  Last connection wins: after two connections of the same actor, a
    notification goes to the second socket only. *)
Theorem reconnect_last_socket_wins (st : State) (actorId : ObjectId)
    (s1 s2 : Socket) (n : Notification.t) :
  let st2 := snd (WebSocketService.onConnection actorId s2
                    (snd (WebSocketService.onConnection actorId s1 st))) in
  userSockets st2 = <[actorId := s2]> (userSockets st)
  /\ WebSocketService.broadcastNotification actorId n st2
     = (inr tt, set_emitted (emitted st ++ [(s2, "new_notification", n)]) st2).
Proof.
  intros st2. subst st2. split; [apply insert_insert_eq|].
  rewrite (broadcast_registered _ _ s2); [reflexivity|].
  apply lookup_insert_eq.
Qed.

(** X11.  The 'disconnect' handler deletes the actor's entry whichever socket
    closed: when an actor reconnects and the first socket then
    disconnects, the actor has no entry although the second socket is
    live, and a notification for the actor is dropped. *)
Theorem stale_disconnect_drops_live_socket (st : State) (actorId : ObjectId)
    (s1 s2 : Socket) (n : Notification.t) :
  let st3 := snd (WebSocketService.onDisconnect actorId
                    (snd (WebSocketService.onConnection actorId s2
                            (snd (WebSocketService.onConnection actorId s1 st))))) in
  userSockets st3 !! actorId = None
  /\ WebSocketService.broadcastNotification actorId n st3 = (inr tt, st3).
Proof.
  intros st3. subst st3.
  assert (H : forall (m : gmap string Socket), delete actorId m !! actorId = None)
    by (intros m; apply lookup_delete_eq).
  split; [apply H|]. apply broadcast_unregistered_noop_aux. apply H.
Qed.

(** The set of active connections follows the two handlers, and an
    actor's connection or disconnection does not touch another actor's
    entry. *)
Theorem active_connections_track_registry (st : State) (actorId : ObjectId)
    (socket : Socket) :
  WebSocketService.getActiveConnections
    (snd (WebSocketService.onConnection actorId socket st))
  = {[actorId]} ∪ WebSocketService.getActiveConnections st
  /\ WebSocketService.getActiveConnections
       (snd (WebSocketService.onDisconnect actorId st))
     = WebSocketService.getActiveConnections st ∖ {[actorId]}
  /\ (forall other, other <> actorId ->
        userSockets (snd (WebSocketService.onConnection actorId socket st)) !! other
        = userSockets st !! other
        /\ userSockets (snd (WebSocketService.onDisconnect actorId st)) !! other
           = userSockets st !! other).
Proof.
  unfold WebSocketService.getActiveConnections. simpl.
  split; [apply dom_insert_L|]. split; [apply dom_delete_L|].
  intros other Hne. split; [apply lookup_insert_ne | apply lookup_delete_ne]; congruence.
Qed.

(** ** Ticket events over the registry *)

(** X12.  [notifyTicketUpdate] of the socket service emits only 'ticket_updated'
    events that carry the ticket, each to a socket registered for the
    owner, for the assigned staff member or for a user with the [isAdmin]
    flag; people without a socket are skipped.  Nothing removes
    duplicates: an owner who is also an admin gets the event twice on the
    same socket. *)
Theorem ticket_update_recipients (st : State) (ticket : Ticket.t) :
  (forall s e p,
      In (s, e, p) (TicketEvents.notifyTicketUpdate st ticket) ->
      e = "ticket_updated" /\ p = ticket
      /\ exists uid,
           userSockets st !! uid = Some s
           /\ (uid = Ticket.user ticket
               \/ Ticket.assignedStaff ticket = Some uid
               \/ exists a, In a (users st) /\ User.isAdmin a = true /\ User._id a = uid))
  /\ (forall s a,
        userSockets st !! Ticket.user ticket = Some s ->
        In a (users st) -> User.isAdmin a = true -> User._id a = Ticket.user ticket ->
        exists between rest,
          TicketEvents.notifyTicketUpdate st ticket
          = ((s, "ticket_updated", ticket) :: between
             ++ (s, "ticket_updated", ticket) :: rest)%list).
Proof.
  assert (Hsock : forall uid s, In s (TicketEvents.socketOf st uid) ->
                                userSockets st !! uid = Some s).
  { intros uid s. unfold TicketEvents.socketOf.
    destruct (userSockets st !! uid); simpl; [intros [<-|[]]; reflexivity | intros []]. }
  assert (Hadm : forall s, In s (TicketEvents.getAdminSockets st) <->
            exists a, In a (users st) /\ User.isAdmin a = true
                      /\ userSockets st !! User._id a = Some s).
  { intros s. unfold TicketEvents.getAdminSockets.
    rewrite <- list_elem_of_In, list_elem_of_omap. split.
    - intros (a & Ha & Hs). apply list_elem_of_In, List.filter_In in Ha as [Hin Hf]. eauto.
    - intros (a & Hin & Hf & Hs). exists a. split; [|exact Hs].
      apply list_elem_of_In, List.filter_In. auto. }
  split.
  - intros s e p Hin. unfold TicketEvents.notifyTicketUpdate in Hin.
    rewrite !in_app_iff, !in_map_iff in Hin.
    destruct Hin as [(s' & [= <- <- <-] & Hs) | [(s' & [= <- <- <-] & Hs) | (s' & [= <- <- <-] & Hs)]].
    + repeat split. exists (Ticket.user ticket). split; [apply Hsock, Hs | auto].
    + repeat split. destruct (Ticket.assignedStaff ticket) as [staff|]; [|destruct Hs].
      exists staff. split; [apply Hsock, Hs | auto].
    + repeat split. apply Hadm in Hs as (a & Hin & Hf & Hs).
      exists (User._id a). split; [exact Hs|]. right. right. eauto.
  - intros s a Hs Hin Hf Hid.
    assert (Hins : In s (TicketEvents.getAdminSockets st)).
    { apply Hadm. exists a. rewrite Hid. auto. }
    apply in_split in Hins as (pre & post & Hsplit).
    unfold TicketEvents.notifyTicketUpdate. rewrite Hsplit.
    unfold TicketEvents.socketOf at 1. rewrite Hs. simpl.
    rewrite List.map_app. simpl.
    eexists. eexists. rewrite app_assoc. reflexivity.
Qed.

(** root is an admin with a socket and owns "t-root". *)
Lemma ticket_update_recipients_witness :
  exists between rest,
    TicketEvents.notifyTicketUpdate Desk.state Desk2.rootTicket
    = (("socket-7", "ticket_updated", Desk2.rootTicket) :: between
       ++ ("socket-7", "ticket_updated", Desk2.rootTicket) :: rest)%list.
Proof.
  destruct (ticket_update_recipients Desk.state Desk2.rootTicket) as [_ H].
  apply (H "socket-7" Desk.root).
  - vm_compute. reflexivity.
  - simpl. auto.
  - reflexivity.
  - reflexivity.
Defined.

(** ** Dispatch: what each channel gets *)

Section DispatchChannels.
Import NotificationModel NotificationService.
Variables (w : World) (u : User.t) (ticket : Ticket.t) (type : string).

(** The run of [sendNotification] once the record is written. *)
Lemma sendNotification_after_create st :
  Notification.validate (notificationData u ticket type)
    && notificationStoreUp w = true ->
  sendNotification w (Some u) ticket type st
  = let doc := newDocument w (notificationData u ticket type) in
    let mail := {| to := User.email u;
                   mail_subject := getEmailSubject type;
                   html := getEmailTemplate w u ticket type |} in
    let st1 := set_notifications (notifications st ++ [doc]) st in
    if pushRaises w then
      (inr None,
       set_console (console st ++ ["Error creating in-app notification:";
                                   "Error sending notification:"]) st1)
    else
      let st2 := match userSockets st !! User._id u with
                 | Some socket =>
                     set_emitted (emitted st ++ [(socket, "new_notification", doc)]) st1
                 | None => st1
                 end in
      if mailDelivers w
      then (inr (Some doc), set_sentMail (sentMail st ++ [mail]) st2)
      else (inr (Some doc),
            set_console (console st ++ ["Error sending email notification:"]) st2).
Proof.
  intros Hc. run_dispatch. rewrite (create_accepts _ _ _ Hc). simpl.
  destruct (pushRaises w); simpl.
  - unfold set_console. simpl. rewrite <- app_assoc. reflexivity.
  - destruct (userSockets st !! User._id u); simpl;
      destruct (mailDelivers w); reflexivity.
Qed.
End DispatchChannels.

(** X13.  The complete outcome of a dispatch to a found user.  Nothing is pushed
    or mailed unless the record was written.  The push goes to the socket
    registered for the target user, if any.  The mail is sent only if the
    push did not raise: a raising push leaves the record stored but
    suppresses the mail and makes [sendNotification] return [undefined].
    A failing mail transport changes neither the push nor the returned
    notification. *)
Theorem sendNotification_outcome (w : World) (u : User.t) (ticket : Ticket.t)
    (type : string) (st : State) :
  let created := existsb (String.eqb type) Notification.typeEnum
                 && notificationStoreUp w in
  let doc := NotificationModel.newDocument w
               (NotificationService.notificationData u ticket type) in
  let r := NotificationService.sendNotification w (Some u) ticket type st in
  fst r = inr (if created && negb (pushRaises w) then Some doc else None)
  /\ emitted (snd r)
     = (if created && negb (pushRaises w)
        then match userSockets st !! User._id u with
             | Some socket => (emitted st ++ [(socket, "new_notification", doc)])%list
             | None => emitted st
             end
        else emitted st)
  /\ sentMail (snd r)
     = (if created && negb (pushRaises w) && mailDelivers w
        then (sentMail st
              ++ [{| to := User.email u;
                     mail_subject := NotificationService.getEmailSubject type;
                     html := NotificationService.getEmailTemplate w u ticket type |}])%list
        else sentMail st)
  /\ userSockets (snd r) = userSockets st
  /\ tickets (snd r) = tickets st.
Proof.
  intros created doc r. subst created r.
  rewrite <- (validate_notificationData u ticket type).
  destruct (create_total w (NotificationService.notificationData u ticket type) st)
    as [(e & E & ->) | [_ Hc]].
  - rewrite (sendNotification_persist_failure _ _ _ _ _ _ E). simpl. auto.
  - rewrite (sendNotification_after_create _ _ _ _ _ Hc), Hc. simpl.
    destruct (pushRaises w); simpl; [auto|].
    destruct (userSockets st !! User._id u); destruct (mailDelivers w); simpl; auto.
Qed.

(** X14.  Types outside the schema's enum.  When it comes to dispatch
    nothing is stored, pushed or mailed for them; the only trace is two log
    lines.  Unless the type is a property name that the text tables
    inherit from [Object.prototype], both tables answer with their generic
    entry.  Types of the enum get a subject of their own and a message that
    names the ticket. *)
Theorem dispatch_of_unknown_type (ticket : Ticket.t) (type : string) :
  (existsb (String.eqb type) Notification.typeEnum = false ->
   (~ In type objectPrototypeKeys ->
    NotificationService.getNotificationMessage ticket type
    = "You have a ticket notification."
    /\ NotificationService.getEmailSubject type = "Ticket Notification")
   /\ forall w u st,
        NotificationService.sendNotification w (Some u) ticket type st
        = (inr None,
           set_console (console st ++ ["Error creating in-app notification:";
                                       "Error sending notification:"]) st))
  /\ (existsb (String.eqb type) Notification.typeEnum = true ->
      NotificationService.getEmailSubject type <> "Ticket Notification"
      /\ exists pre post,
           NotificationService.getNotificationMessage ticket type
           = pre ++ "#" ++ Ticket._id ticket ++ post).
Proof.
  split.
  - intros Hout.
    assert (Hkeys : forall key, In key Notification.typeEnum -> String.eqb key type = false).
    { intros key Hin. apply String.eqb_neq. intros ->.
      apply not_true_iff_false in Hout. apply Hout, existsb_exists.
      exists type. split; [exact Hin | apply String.eqb_refl]. }
    assert (Hfall : forall table fallback,
               (forall kv, In kv table -> In (fst kv) Notification.typeEnum) ->
               NotificationService.lookupOr table type fallback = fallback).
    { intros table fallback Htab. unfold NotificationService.lookupOr.
      destruct (List.find _ table) as [kv|] eqn:E; [|reflexivity].
      apply List.find_some in E as [Hin Heq].
      rewrite (Hkeys _ (Htab _ Hin)) in Heq. discriminate. }
    split.
    + intros _. split.
      * apply Hfall. intros kv Hin. simpl in Hin.
        repeat (destruct Hin as [<-|Hin]; [simpl; auto 10|]). destruct Hin.
      * apply Hfall. intros kv Hin. simpl in Hin.
        repeat (destruct Hin as [<-|Hin]; [simpl; auto 10|]). destruct Hin.
    + intros w u st.
      destruct (create_total w (NotificationService.notificationData u ticket type) st)
        as [(e & E & _) | [_ Hc]].
      * apply (sendNotification_persist_failure _ _ _ _ _ _ E).
      * rewrite validate_notificationData, Hout in Hc. discriminate.
  - intros Hin. apply existsb_exists in Hin as (key & Hin & Heq).
    apply String.eqb_eq in Heq. subst key. simpl in Hin.
    destruct Hin as [<-|[<-|[<-|[<-|[<-|[<-|[]]]]]]];
      (split; [discriminate|]).
    + exists "Your ticket ", " has been created successfully.". reflexivity.
    + exists "Your ticket ", " has been updated.". reflexivity.
    + exists "Your ticket ", " has been assigned to a support agent.". reflexivity.
    + exists "Your ticket ", " has been escalated for urgent attention.". reflexivity.
    + exists "Your ticket ", " has been closed.". reflexivity.
    + exists "You have a new message on ticket ", ".". reflexivity.
Qed.

(** 'TICKET_REOPENED' is neither in the enum nor an inherited name. *)
Lemma dispatch_of_unknown_type_witness :
  NotificationService.getNotificationMessage Desk.openTicket "TICKET_REOPENED"
  = "You have a ticket notification."
  /\ NotificationService.sendNotification (Desk.world true false true)
       (Some Desk.alice) Desk.openTicket "TICKET_REOPENED" Desk.state
     = (inr None,
        set_console ["Error creating in-app notification:";
                     "Error sending notification:"] Desk.state).
Proof.
  destruct (dispatch_of_unknown_type Desk.openTicket "TICKET_REOPENED") as [H _].
  destruct (H eq_refl) as (Htext & Hsend).
  split.
  - apply Htext. unfold objectPrototypeKeys. simpl.
    intros Hin. repeat (destruct Hin as [Hin|Hin]; [discriminate Hin|]). exact Hin.
  - apply (Hsend (Desk.world true false true) Desk.alice Desk.state).
Defined.

(** ** notifyTicketCreation and notifyTicketUpdate *)

(** X15.  When the ticket's owner is not (or no longer) in the user collection,
    both notify functions complete without raising and without storing,
    pushing or mailing anything: the [null] user is met inside
    sendNotification's [try] and leaves one log line. *)
Theorem notify_with_missing_owner (w : World) (ticket : Ticket.t)
    (updatedBy : User.t) (st : State) :
  (forall u, In u (users st) -> User._id u <> Ticket.user ticket) ->
  NotificationService.notifyTicketCreation w ticket st
  = (inr tt, set_console (console st ++ ["Error sending notification:"]) st)
  /\ NotificationService.notifyTicketUpdate w ticket updatedBy st
     = (inr tt, set_console (console st ++ ["Error sending notification:"]) st).
Proof.
  intros Hmiss.
  assert (Hf : List.find (fun u => String.eqb (User._id u) (Ticket.user ticket)) (users st)
               = None).
  { destruct (List.find _ (users st)) as [u|] eqn:E; [|reflexivity].
    apply List.find_some in E as [Hin Heq]. apply String.eqb_eq in Heq.
    exfalso. exact (Hmiss u Hin Heq). }
  unfold NotificationService.notifyTicketCreation, NotificationService.notifyTicketUpdate,
    NotificationService.User_findById.
  split; run_dispatch; rewrite Hf; reflexivity.
Qed.

(** "t-root" with a user collection that lacks root. *)
Lemma notify_with_missing_owner_witness :
  NotificationService.notifyTicketCreation (Desk.world true false true)
    Desk2.rootTicket
    (mkState ∅ ∅ [Desk.alice] [] ∅ [] [] [])
  = (inr tt, mkState ∅ ∅ [Desk.alice] [] ∅ [] [] ["Error sending notification:"]).
Proof.
  destruct (notify_with_missing_owner (Desk.world true false true) Desk2.rootTicket
              Desk.alice (mkState ∅ ∅ [Desk.alice] [] ∅ [] [] [])) as [H _].
  - simpl. intros u [<-|[]]. discriminate.
  - exact H.
Defined.

(** X16.  With the owner found, the store accepting, the push not raising and
    the mail transport working, notifyTicketCreation stores one
    'TICKET_CREATED' record for the owner, pushes it to the owner's socket
    if there is one, mails the owner under the subject "New Ticket
    Created", and logs nothing. *)
Theorem notifyTicketCreation_delivers (w : World) (ticket : Ticket.t)
    (owner : User.t) (st : State) :
  List.find (fun u => String.eqb (User._id u) (Ticket.user ticket)) (users st)
  = Some owner ->
  notificationStoreUp w = true -> pushRaises w = false -> mailDelivers w = true ->
  let doc := Notification.mk (freshId w) (Ticket.user ticket) (Some (Ticket._id ticket))
               "TICKET_CREATED"
               ("Your ticket #" ++ Ticket._id ticket ++ " has been created successfully.")
               false None in
  let st' := snd (NotificationService.notifyTicketCreation w ticket st) in
  fst (NotificationService.notifyTicketCreation w ticket st) = inr tt
  /\ notifications st' = (notifications st ++ [doc])%list
  /\ emitted st'
     = match userSockets st !! Ticket.user ticket with
       | Some socket => (emitted st ++ [(socket, "new_notification", doc)])%list
       | None => emitted st
       end
  /\ (exists body,
        sentMail st'
        = (sentMail st ++ [{| to := User.email owner;
                              mail_subject := "New Ticket Created";
                              html := body |}])%list)
  /\ console st' = console st.
Proof.
  intros Hfind Hup Hpush Hmail doc st'. subst st' doc.
  assert (Hid : User._id owner = Ticket.user ticket).
  { apply List.find_some in Hfind as [_ H]. apply String.eqb_eq, H. }
  assert (Hc : Notification.validate
                 (NotificationService.notificationData owner ticket "TICKET_CREATED")
               && notificationStoreUp w = true).
  { rewrite validate_notificationData, Hup. reflexivity. }
  pose proof (sendNotification_after_create w owner ticket "TICKET_CREATED" st Hc) as Hrun.
  rewrite Hpush, Hmail in Hrun. cbv zeta in Hrun.
  unfold NotificationService.notifyTicketCreation, NotificationService.User_findById.
  unfold mbind, M_bind, bind, gets, mret, M_ret, ret. rewrite Hfind, Hrun.
  unfold NotificationModel.newDocument, NotificationService.notificationData.
  rewrite Hid. simpl.
  destruct (userSockets st !! Ticket.user ticket); simpl;
    (split; [reflexivity|]; split; [reflexivity|]; split; [reflexivity|];
     split; [eexists; reflexivity | reflexivity]).
Qed.

(** alice's "t-open" on the desk: alice has no socket, so nothing is
    pushed. *)
Lemma notifyTicketCreation_delivers_witness :
  notifications (snd (NotificationService.notifyTicketCreation
                        (Desk.world true false true) Desk.openTicket Desk.state))
  = [Desk.welcome;
     Notification.mk "n-1" "u-alice" (Some "t-open") "TICKET_CREATED"
       "Your ticket #t-open has been created successfully." false None].
Proof.
  destruct (notifyTicketCreation_delivers (Desk.world true false true)
              Desk.openTicket Desk.alice Desk.state eq_refl eq_refl eq_refl eq_refl)
    as (_ & H & _).
  exact H.
Defined.

(** ** markNotificationAsRead and clearAllNotifications *)

Section FindOneAndUpdateMore.
Import NotificationModel.
Variables (filter : Notification.t -> bool)
          (update : Notification.t -> Notification.t).

Lemma findOneAndUpdate_pointwise docs :
  Forall2 (fun a b => b = a \/ filter a = true /\ b = update a)
          docs (snd (findOneAndUpdate filter update docs)).
Proof.
  induction docs as [|n docs IH]; simpl; [constructor|].
  destruct (filter n) eqn:Hf; simpl.
  - constructor; [auto|]. apply Forall2_same_length_lookup_2; [reflexivity|].
    intros i x y Hx Hy. rewrite Hx in Hy. injection Hy as <-. auto.
  - destruct (findOneAndUpdate filter update docs) as [found rest]. simpl in *.
    constructor; auto.
Qed.

Lemma findOneAndUpdate_again docs :
  (forall x, filter (update x) = filter x) ->
  (forall x, update (update x) = update x) ->
  findOneAndUpdate filter update (snd (findOneAndUpdate filter update docs))
  = findOneAndUpdate filter update docs.
Proof.
  intros Hf Hu. induction docs as [|n docs IH]; simpl; [reflexivity|].
  destruct (filter n) eqn:E; simpl.
  - rewrite Hf, E, Hu. reflexivity.
  - destruct (findOneAndUpdate filter update docs) as [found rest] eqn:E'. simpl in *.
    rewrite E, IH. reflexivity.
Qed.
End FindOneAndUpdateMore.

(** X17.  markNotificationAsRead never changes the schema's [isRead] flag of any
    stored notification, nor the number or order of the records: at most
    the record it found differs, and only in the [read] key.  Nothing else
    of the state changes. *)
Theorem markNotificationAsRead_keeps_isRead (w : World) (id : ObjectId)
    (reqUser : User.t) (st : State) :
  let st' := snd (NotificationController.markNotificationAsRead w id reqUser st) in
  List.map Notification.isRead (notifications st')
  = List.map Notification.isRead (notifications st)
  /\ Forall2 (fun a b =>
                b = a
                \/ Notification._id a = id /\ Notification.user a = User._id reqUser
                   /\ b = Notification.set_read (Some true) a)
             (notifications st) (notifications st')
  /\ st' = set_notifications (notifications st') st.
Proof.
  intros st'. subst st'.
  unfold NotificationController.markNotificationAsRead,
    NotificationController.Notification_findOneAndUpdate.
  destruct (notificationStoreUp w); simpl.
  2:{ split; [reflexivity|]. split; [|symmetry; apply set_notifications_same].
      apply Forall2_same_length_lookup_2; [reflexivity|].
      intros i x y Hx Hy. rewrite Hx in Hy. injection Hy as <-. auto. }
  unfold tryCatch, mbind, M_bind, bind, gets, modify, mret, M_ret, ret. simpl.
  pose proof (findOneAndUpdate_pointwise
                (NotificationController.ownedBy id (User._id reqUser))
                NotificationController.markRead (notifications st)) as Hpt.
  destruct (NotificationModel.findOneAndUpdate _ _ (notifications st))
    as [found docs'] eqn:E. simpl in *.
  assert (Hgoal : Forall2 (fun a b =>
                b = a
                \/ Notification._id a = id /\ Notification.user a = User._id reqUser
                   /\ b = Notification.set_read (Some true) a)
             (notifications st) docs').
  { eapply Forall2_impl; [exact Hpt|]. intros a b [->|[Hf ->]]; [auto|].
    right. unfold NotificationController.ownedBy in Hf.
    apply andb_true_iff in Hf as [H1 H2]. apply String.eqb_eq in H1, H2. auto. }
  destruct found; simpl; (split; [|split; [exact Hgoal | reflexivity]]);
    clear -Hgoal; induction Hgoal as [|a b l l' [->|(_ & _ & ->)] _ IH]; simpl;
      rewrite ?IH; reflexivity.
Qed.

(** X18.  Marking twice is marking once: the second call gives the reply of the
    first and leaves the state the first call produced. *)
Theorem markNotificationAsRead_twice (w : World) (id : ObjectId)
    (reqUser : User.t) (st : State) :
  NotificationController.markNotificationAsRead w id reqUser
    (snd (NotificationController.markNotificationAsRead w id reqUser st))
  = NotificationController.markNotificationAsRead w id reqUser st.
Proof.
  unfold NotificationController.markNotificationAsRead,
    NotificationController.Notification_findOneAndUpdate.
  destruct (notificationStoreUp w); simpl; [|reflexivity].
  unfold tryCatch, mbind, M_bind, bind, gets, modify, mret, M_ret, ret. simpl.
  pose proof (findOneAndUpdate_again
                (NotificationController.ownedBy id (User._id reqUser))
                NotificationController.markRead (notifications st)
                (fun x => eq_refl) (fun x => eq_refl)) as Hagain.
  destruct (NotificationModel.findOneAndUpdate _ _ (notifications st))
    as [found docs'] eqn:E. simpl in Hagain.
  destruct found; simpl in *; rewrite Hagain; simpl; reflexivity.
Qed.

Lemma filter_of_filter {A} (g h : A -> bool) (l : list A) :
  (forall x, g x = true -> h x = true) ->
  List.filter g (List.filter h l) = List.filter g l.
Proof.
  intros Hgh. induction l as [|x l IH]; simpl; [reflexivity|].
  destruct (h x) eqn:Hh; simpl.
  - rewrite IH. reflexivity.
  - destruct (g x) eqn:Hg; [|exact IH]. rewrite (Hgh x Hg) in Hh. discriminate.
Qed.

(** X19.  With the store answering, clearAllNotifications replies 204 and
    removes exactly the requesting user's notifications: none of them is
    left, every other user's notifications are all still there in the same
    order, and a later markNotificationAsRead by that user answers 404
    whatever the id.  With the store down it forwards the 500 error and
    changes nothing. *)
Theorem clearAllNotifications_clears_own (w : World) (reqUser : User.t) (st : State) :
  let st' := snd (NotificationCleanup.clearAllNotifications w reqUser st) in
  (notificationStoreUp w = true ->
   fst (NotificationCleanup.clearAllNotifications w reqUser st)
   = inr (NotificationCleanup.StatusJson 204 "success")
   /\ (forall n, In n (notifications st')
                 <-> In n (notifications st) /\ Notification.user n <> User._id reqUser)
   /\ (forall other, other <> User._id reqUser ->
         List.filter (NotificationCleanup.ownedByUser other) (notifications st')
         = List.filter (NotificationCleanup.ownedByUser other) (notifications st))
   /\ (forall id,
         NotificationController.markNotificationAsRead w id reqUser st'
         = (inr (NextError "No notification found with that ID" 404), st')))
  /\ (notificationStoreUp w = false ->
      NotificationCleanup.clearAllNotifications w reqUser st
      = (inr (NotificationCleanup.ClearError "Failed to clear notifications" 500), st)).
Proof.
  intros st'. subst st'.
  unfold NotificationCleanup.clearAllNotifications,
    NotificationCleanup.Notification_deleteMany.
  split; intros Hup; rewrite Hup; simpl; [|reflexivity].
  split; [reflexivity|].
  assert (Hmem : forall n,
            In n (List.filter (fun n0 => negb (NotificationCleanup.ownedByUser
                                                 (User._id reqUser) n0)) (notifications st))
            <-> In n (notifications st) /\ Notification.user n <> User._id reqUser).
  { intros n. rewrite List.filter_In. unfold NotificationCleanup.ownedByUser.
    rewrite negb_true_iff, String.eqb_neq. reflexivity. }
  split; [exact Hmem|]. split.
  - intros other Hne. apply filter_of_filter. intros x Hx.
    unfold NotificationCleanup.ownedByUser in *. apply String.eqb_eq in Hx.
    apply negb_true_iff, String.eqb_neq. congruence.
  - intros id. unfold NotificationController.markNotificationAsRead,
      NotificationController.Notification_findOneAndUpdate. rewrite Hup. simpl.
    unfold tryCatch, mbind, M_bind, bind, gets, modify, mret, M_ret, ret. simpl.
    rewrite findOneAndUpdate_none; [reflexivity|].
    intros n Hn. apply list_elem_of_In, Hmem in Hn as [_ Hn].
    unfold NotificationController.ownedBy.
    apply String.eqb_neq in Hn. rewrite Hn. apply andb_false_r.
Qed.

(** alice clears her two notifications of the inbox; root's stays. *)
Lemma clearAllNotifications_clears_own_witness :
  notifications (snd (NotificationCleanup.clearAllNotifications
                        (Desk.world true false true) Desk.alice Desk2.inbox))
  = [Desk2.rootNote]
  /\ fst (NotificationController.markNotificationAsRead (Desk.world true false true)
            "n-0" Desk.alice
            (snd (NotificationCleanup.clearAllNotifications
                    (Desk.world true false true) Desk.alice Desk2.inbox)))
     = inr (NextError "No notification found with that ID" 404).
Proof.
  destruct (clearAllNotifications_clears_own (Desk.world true false true)
              Desk.alice Desk2.inbox) as [H _].
  destruct (H eq_refl) as (_ & _ & _ & Hmark).
  split; [reflexivity|]. rewrite (Hmark "n-0"). reflexivity.
Defined.

(** ** The message rate limit *)

(** X20.  rateLimitTicketOperations counts tickets, not messages: a user whose
    messages sit in fewer than ten tickets is never limited, however many
    messages were sent in the last five minutes. *)
Theorem rate_limit_counts_tickets (now : Date) (reqUser : User.t) (st : State) :
  (size (filter (fun kv => Is_true (RateLimit.hasMessageFrom (User._id reqUser) kv.2))
                (tickets st)) < 10)%nat ->
  RateLimit.rateLimitTicketOperations now reqUser st = (inr (inr tt), st).
Proof.
  intros Hfew.
  assert (Hle : (size (filter (fun kv : ObjectId * Ticket.t => Is_true
                   (RateLimit.hasMessageFrom (User._id reqUser) kv.2
                    && RateLimit.hasMessageSince (now - RateLimit.fiveMinutes)%Z kv.2))
                 (tickets st))
                 <= size (filter (fun kv : ObjectId * Ticket.t =>
                                    Is_true (RateLimit.hasMessageFrom
                                               (User._id reqUser) kv.2)) (tickets st)))%nat).
  { apply map_subseteq_size, map_filter_subseteq_ext.
    intros i x _ H. apply Is_true_true in H. apply andb_true_iff in H as [H _].
    apply Is_true_true, H. }
  unfold RateLimit.rateLimitTicketOperations, RateLimit.Ticket_countDocuments.
  unfold tryCatch, mbind, M_bind, bind, gets, mret, M_ret, ret.
  match goal with
  | |- context [Nat.leb 10 ?c] => destruct (Nat.leb_spec 10 c)
  end; [lia | reflexivity].
Qed.

(** On the desk alice wrote in two tickets. *)
Lemma rate_limit_counts_tickets_witness :
  RateLimit.rateLimitTicketOperations 1000 Desk.alice Desk.state
  = (inr (inr tt), Desk.state).
Proof.
  apply rate_limit_counts_tickets.
  eapply Nat.le_lt_trans; [apply map_subseteq_size, map_filter_subseteq|].
  vm_compute. lia.
Defined.

(** ** escalateTicket saves even when nothing is due *)

(** X21.  For a stored, valid ticket that is not due, escalateTicket still
    runs [save]: the ticket is written back with every path other than
    [metadata] as the pre('save') hook leaves it (so an Open ticket on
    which only staff wrote is closed by the call), and the reply is the
    400 caused by the missing notifyTicketEscalation. *)
Theorem escalateTicket_not_due_still_saves (now : Date) (id : ObjectId)
    (t : Ticket.t) (created : Date) (st : State) :
  tickets st !! id = Some t ->
  Ticket._id t = id ->
  Ticket.validate t = true ->
  Ticket.createdAt t = Some created ->
  TicketController.dueForEscalation now t = false ->
  fst (TicketController.escalateTicket now id st)
  = inr (Json 400 (ErrorBody "Error escalating ticket"
           (TypeError "NotificationService.notifyTicketEscalation is not a function")))
  /\ exists doc,
       snd (TicketController.escalateTicket now id st)
       = set_tickets (<[id := doc]> (tickets st)) st
       /\ Ticket.set_metadata (Ticket.metadata t) doc
          = Ticket.set_metadata (Ticket.metadata t) (fst (Ticket.preSave now t)).
Proof.
  intros Hfind Hid Hv Hc Hdue.
  unfold TicketController.escalateTicket. run_handler. rewrite Hfind, Hdue. simpl.
  unfold TicketController.save. rewrite Hv. simpl.
  pose proof (preSave_hasText now t (validate_hasText _ Hv)) as Hnext.
  pose proof (preSave_id now t) as Hpid.
  pose proof (preSave_createdAt now t) as Hcreated.
  destruct (Ticket.preSave now t) as [doc r]. simpl in *. subst r.
  rewrite Hcreated, Hc. run_handler. rewrite Hpid, Hid.
  split; [reflexivity|]. exists doc. split; reflexivity.
Qed.

(** "t-staff" one second after its creation: not due, and closed by the
    call. *)
Lemma escalateTicket_not_due_still_saves_witness :
  exists doc,
    tickets (snd (TicketController.escalateTicket 2000 "t-staff" Desk2.withStaffTicket))
      !! "t-staff" = Some doc
    /\ Ticket.status doc = Closed
    /\ Ticket.closedAt doc = Some 2000.
Proof.
  destruct (escalateTicket_not_due_still_saves 2000 "t-staff" Desk.staffOnlyTicket 1000
              Desk2.withStaffTicket) as (_ & doc & E & Hdoc).
  - simpl. apply lookup_insert_eq.
  - reflexivity.
  - reflexivity.
  - reflexivity.
  - reflexivity.
  - exists doc. rewrite E. simpl. rewrite lookup_insert_eq.
    split; [reflexivity|].
    split; [exact (f_equal Ticket.status Hdoc) | exact (f_equal Ticket.closedAt Hdoc)].
Defined.
